(** * check.py: the Cargo check report generator

    A shallow embedding of [backend/check.py] and the properties of its
    report.

    The script reads [check.json] line by line, decodes every line with
    [json.loads], keeps the compiler messages of level error or warning that
    carry a span, and writes a Markdown report to [check.md].

    Modelling choices.
    - A Python [str] is a list of Unicode code points ([N]); [lit] turns an
      ASCII literal of the script into such a list.
    - The values [json.loads] can return are the inductive [pyval].  A dict
      is an association list in insertion order, each key held once.
    - An operation that Python may abort with an exception returns
      [result A = exn + A]; the module-level variables [out] and
      [has_messages] are the record [state], threaded through the loop.
    - The parts of the Python runtime that are not code of the script are the
      fields of the class [Runtime]: the decoder [json.loads], the float type
      with its [repr] and truth value, [repr] on [str], and the Unicode case
      tables outside ASCII.  Every theorem holds for every runtime; two
      runtimes, [Reference.runtime] and [NonFinite.runtime], give the
      theorems and the counterexamples lines to run on.
    - The file is the list of lines its iteration yields, and the document is
      the [str] handed to [write].  Opening the two files, the decoding and
      the encoding of their text and the write itself belong to the
      environment and are outside the model: [check] starts at the lines
      and ends at the argument of [write].
    - The bare [except] around [json.loads] catches whatever the decoder
      raises, so that the decoder is a function to [option]; every other
      call of the loop body is outside the [try] and its exception ends the
      run. *)

From Stdlib Require Import List NArith ZArith Bool String Ascii Lia DecimalString.
Import ListNotations.

Local Open Scope N_scope.

(** ** Python strings *)

Definition str := list N.

Definition lit (s : string) : str := map N_of_ascii (list_ascii_of_string s).

(** The one-character string ["\n"]. *)
Definition nl : str := [10].

Fixpoint str_eqb (a b : str) : bool :=
  match a, b with
  | [], [] => true
  | x :: a', y :: b' => (x =? y) && str_eqb a' b'
  | _, _ => false
  end.

(** [sep.join(xs)] *)
Fixpoint join (sep : str) (xs : list str) : str :=
  match xs with
  | [] => []
  | [x] => x
  | x :: rest => x ++ sep ++ join sep rest
  end.

(** [str.isspace] on one code point: the white space table of CPython. *)
Definition is_space (c : N) : bool :=
  ((9 <=? c) && (c <=? 13)) || ((28 <=? c) && (c <=? 32))
  || (c =? 133) || (c =? 160) || (c =? 5760)
  || ((8192 <=? c) && (c <=? 8202))
  || (c =? 8232) || (c =? 8233) || (c =? 8239) || (c =? 8287) || (c =? 12288).

Fixpoint lstrip (s : str) : str :=
  match s with
  | c :: r => if is_space c then lstrip r else s
  | [] => []
  end.

(** [s.rstrip()]: the trailing white space is dropped. *)
Definition rstrip (s : str) : str := rev (lstrip (rev s)).

Definition ascii_is_upper (c : N) : bool := (65 <=? c) && (c <=? 90).
Definition ascii_is_lower (c : N) : bool := (97 <=? c) && (c <=? 122).
Definition ascii_upper (c : N) : N := if ascii_is_lower c then c - 32 else c.
Definition ascii_lower (c : N) : N := if ascii_is_upper c then c + 32 else c.

(** [str(z)] for an [int]. *)
Definition int_str (z : Z) : str := lit (NilZero.string_of_int (Z.to_int z)).

(** ** Values and exceptions *)

#[warnings="-register-all"]
Inductive pyval {F : Type} : Type :=
| VNone
| VBool (b : bool)
| VInt (z : Z)
| VFloat (f : F)
| VStr (s : str)
| VList (l : list pyval)
| VDict (d : list (str * pyval)).
Arguments pyval : clear implicits.

Inductive exn : Type :=
| AttributeError
| TypeError
| KeyError
| IndexError.

Definition result (A : Type) : Type := (exn + A)%type.

Definition raise {A : Type} (e : exn) : result A := inl e.
Definition ret {A : Type} (a : A) : result A := inr a.
Definition bind {A B : Type} (m : result A) (k : A -> result B) : result B :=
  match m with
  | inl e => inl e
  | inr a => k a
  end.

Notation "x <- m ;; k" := (bind m (fun x => k))
  (at level 61, m at next level, right associativity).

(** ** The runtime outside the script *)

Class Runtime : Type := {
  pyfloat : Type;
  (** [repr(f)] and [bool(f)] of a float *)
  float_repr : pyfloat -> str;
  float_bool : pyfloat -> bool;
  (** [repr(s)] of a str *)
  str_repr : str -> str;
  (** the case tables for the code points from 128 on: is the code point
      cased, its title-case mapping, and the lower-case mapping of the
      code point at an index of a string (the mapping of a final sigma
      depends on its neighbours) *)
  uni_cased : N -> bool;
  uni_title : N -> str;
  uni_lower : str -> nat -> N -> str;
  (** [json.loads(line)]; [None] when it raises *)
  json_loads : str -> option (pyval pyfloat)
}.

Section Program.

Context {R : Runtime}.

Definition value : Type := pyval pyfloat.

(** ** Methods and operators of the values *)

Fixpoint dict_get (k : str) (d : list (str * value)) : option value :=
  match d with
  | [] => None
  | (k', v) :: rest => if str_eqb k k' then Some v else dict_get k rest
  end.

(** [o.get(k, default)]: only a dict has the method. *)
Definition get (o : value) (k : str) (default : value) : result value :=
  match o with
  | VDict d =>
      match dict_get k d with
      | Some v => ret v
      | None => ret default
      end
  | _ => raise AttributeError
  end.

(** [v == s] for a str [s]: no other type equals a str. *)
Definition eq_str (v : value) (s : str) : bool :=
  match v with
  | VStr t => str_eqb t s
  | _ => false
  end.

(** [v in (s1, s2, ...)] for a tuple of strs. *)
Definition in_strs (v : value) (ss : list str) : bool := existsb (eq_str v) ss.

(** [bool(v)], as [not v] computes it. *)
Definition truthy (v : value) : bool :=
  match v with
  | VNone => false
  | VBool b => b
  | VInt z => negb (Z.eqb z 0)
  | VFloat f => float_bool f
  | VStr s => match s with [] => false | _ => true end
  | VList l => match l with [] => false | _ => true end
  | VDict d => match d with [] => false | _ => true end
  end.

(** [v[0]]: the first element of a list, the first character of a str;
    a dict decoded from JSON has only str keys, so that the key [0] is
    missing; the other types are not subscriptable. *)
Definition getitem0 (v : value) : result value :=
  match v with
  | VList (x :: _) => ret x
  | VList [] => raise IndexError
  | VStr (c :: _) => ret (VStr [c])
  | VStr [] => raise IndexError
  | VDict _ => raise KeyError
  | _ => raise TypeError
  end.

Definition cased (c : N) : bool :=
  if c <? 128 then ascii_is_upper c || ascii_is_lower c else uni_cased c.

Definition to_title (c : N) : str :=
  if c <? 128 then [ascii_upper c] else uni_title c.

Definition to_lower (whole : str) (i : nat) (c : N) : str :=
  if c <? 128 then [ascii_lower c] else uni_lower whole i c.

Fixpoint title_from (whole : str) (i : nat) (previous_is_cased : bool) (s : str) : str :=
  match s with
  | [] => []
  | c :: r =>
      (if previous_is_cased then to_lower whole i c else to_title c)
        ++ title_from whole (S i) (cased c) r
  end.

(** [s.title()] *)
Definition title (s : str) : str := title_from s 0%nat false s.

(** [v.title()] and [v.rstrip()]: only a str has the methods. *)
Definition title_of (v : value) : result str :=
  match v with
  | VStr s => ret (title s)
  | _ => raise AttributeError
  end.

Definition rstrip_of (v : value) : result str :=
  match v with
  | VStr s => ret (rstrip s)
  | _ => raise AttributeError
  end.

(** [repr(v)] *)
Fixpoint repr (v : value) : str :=
  match v with
  | VNone => lit "None"
  | VBool true => lit "True"
  | VBool false => lit "False"
  | VInt z => int_str z
  | VFloat f => float_repr f
  | VStr s => str_repr s
  | VList l => lit "[" ++ join (lit ", ") (map repr l) ++ lit "]"
  | VDict d =>
      lit "{"
        ++ join (lit ", ") (map (fun kv => str_repr (fst kv) ++ lit ": " ++ repr (snd kv)) d)
        ++ lit "}"
  end.

(** [format(v, "")], what a replacement field [{v}] of an f-string yields:
    a str is taken as it is, the other values as their [repr]. *)
Definition format (v : value) : str :=
  match v with
  | VStr s => s
  | _ => repr v
  end.

(** ** The script *)

Record state : Type := { out : list str; has_messages : bool }.

(** [out = []], [has_messages = False] *)
Definition initial : state := {| out := []; has_messages := false |}.

(** [out.append(s)] *)
Definition append (st : state) (s : str) : state :=
  {| out := out st ++ [s]; has_messages := has_messages st |}.

(** [has_messages = True] *)
Definition set_has_messages (st : state) : state :=
  {| out := out st; has_messages := true |}.

(** The body of [for line in f]; a [continue] returns the state as it is. *)
Definition body (line : str) (st : state) : result state :=
  match json_loads line with
  | None => ret st
  | Some obj =>
      reason <- get obj (lit "reason") VNone ;;
      if negb (eq_str reason (lit "compiler-message")) then ret st else
      msg <- get obj (lit "message") (VDict []) ;;
      level <- get msg (lit "level") VNone ;;
      if negb (in_strs level [lit "error"; lit "warning"]) then ret st else
      spans <- get msg (lit "spans") (VList []) ;;
      if negb (truthy spans) then ret st else
      let st := set_has_messages st in
      span <- getitem0 spans ;;
      level_title <- title_of level ;;
      message <- get msg (lit "message") (VStr (lit "")) ;;
      let st := append st (lit "### " ++ level_title ++ lit ": " ++ format message) in
      file_name <- get span (lit "file_name") VNone ;;
      line_start <- get span (lit "line_start") VNone ;;
      let st := append st (lit "File: " ++ format file_name ++ lit ":" ++ format line_start) in
      let st := append st (lit "```rust") in
      rendered <- get msg (lit "rendered") (VStr (lit "")) ;;
      stripped <- rstrip_of rendered ;;
      let st := append st stripped in
      let st := append st (lit "```" ++ nl) in
      ret st
  end.

(** [for line in f: ...] *)
Fixpoint loop (f : list str) (st : state) : result state :=
  match f with
  | [] => ret st
  | line :: rest => st' <- body line st ;; loop rest st'
  end.

Definition heading : str := lit "# Cargo Check Report" ++ nl ++ nl.

Definition success_document : str :=
  heading ++ lit "No warnings or errors. Build success." ++ nl.

(** The argument of [w.write] in the two branches of the final test. *)
Definition document (st : state) : str :=
  if negb (has_messages st) then success_document
  else heading ++ join nl (out st).

(** The script on the lines of [check.json]: the text handed to [write],
    or the exception that ends the loop. *)
Definition check (f : list str) : result str :=
  st <- loop f initial ;; ret (document st).

End Program.

(** ** A reference runtime

    A decoder for the JSON texts without fractional numbers, and the case
    tables of a runtime that knows ASCII only.  It gives the theorems
    concrete lines to run on; none of them depends on it.  Where
    [json.loads] would return a float (a number with a fraction or an
    exponent, [NaN], [Infinity]) this decoder reports a failure. *)

Module Reference.

Definition jvalue : Type := pyval Empty_set.

Definition is_ws (c : N) : bool := (c =? 32) || (c =? 9) || (c =? 10) || (c =? 13).

Fixpoint skip_ws (s : str) : str :=
  match s with
  | c :: r => if is_ws c then skip_ws r else s
  | [] => []
  end.

Definition is_digit (c : N) : bool := (48 <=? c) && (c <=? 57).

Fixpoint digits (acc : Z) (s : str) : Z * str :=
  match s with
  | c :: r => if is_digit c then digits (10 * acc + Z.of_N (c - 48)) r else (acc, s)
  | [] => (acc, [])
  end.

(** The integer part [0|[1-9][0-9]*]. *)
Definition int_part (s : str) : option (Z * str) :=
  match s with
  | c :: r =>
      if c =? 48 then Some (0%Z, r)
      else if is_digit c then Some (digits 0 s)
      else None
  | [] => None
  end.

Definition starts_fraction (s : str) : bool :=
  match s with
  | c :: _ => (c =? 46) || (c =? 101) || (c =? 69)
  | [] => false
  end.

Definition number (s : str) : option (jvalue * str) :=
  let signed :=
    match s with
    | c :: r => if c =? 45 then (true, r) else (false, s)
    | [] => (false, s)
    end in
  match int_part (snd signed) with
  | Some (z, rest) =>
      if starts_fraction rest then None
      else Some (VInt (if fst signed then (- z)%Z else z), rest)
  | None => None
  end.

Definition hex_digit (c : N) : option N :=
  if is_digit c then Some (c - 48)
  else if (97 <=? c) && (c <=? 102) then Some (c - 87)
  else if (65 <=? c) && (c <=? 70) then Some (c - 55)
  else None.

Definition hex4 (a b c d : N) : option N :=
  match hex_digit a, hex_digit b, hex_digit c, hex_digit d with
  | Some x, Some y, Some z, Some w => Some (((x * 16 + y) * 16 + z) * 16 + w)
  | _, _, _, _ => None
  end.

Definition escape (c : N) : option N :=
  if (c =? 34) || (c =? 92) || (c =? 47) then Some c
  else if c =? 98 then Some 8
  else if c =? 102 then Some 12
  else if c =? 110 then Some 10
  else if c =? 114 then Some 13
  else if c =? 116 then Some 9
  else None.

Definition is_high (u : N) : bool := (55296 <=? u) && (u <=? 56319).
Definition is_low (u : N) : bool := (56320 <=? u) && (u <=? 57343).

(** The characters after an opening quote, up to the closing one. *)
Fixpoint string_body (acc : str) (s : str) : option (str * str) :=
  match s with
  | [] => None
  | c :: r =>
      if c =? 34 then Some (rev acc, r)
      else if c =? 92 then
        match r with
        | [] => None
        | e :: r1 =>
            if e =? 117 then
              match r1 with
              | h1 :: h2 :: h3 :: h4 :: r2 =>
                  match hex4 h1 h2 h3 h4 with
                  | None => None
                  | Some u =>
                      match r2 with
                      | b :: e2 :: l1 :: l2 :: l3 :: l4 :: r3 =>
                          if is_high u && (b =? 92) && (e2 =? 117) then
                            match hex4 l1 l2 l3 l4 with
                            | None => None
                            | Some u2 =>
                                if is_low u2
                                then string_body
                                       (65536 + (u - 55296) * 1024 + (u2 - 56320) :: acc) r3
                                else string_body (u :: acc) r2
                            end
                          else string_body (u :: acc) r2
                      | _ =>
                          match r2 with
                          | b :: e2 :: _ =>
                              if is_high u && (b =? 92) && (e2 =? 117) then None
                              else string_body (u :: acc) r2
                          | _ => string_body (u :: acc) r2
                          end
                      end
                  end
              | _ => None
              end
            else
              match escape e with
              | Some x => string_body (x :: acc) r1
              | None => None
              end
        end
      else if c <? 32 then None
      else string_body (c :: acc) r
  end.

Definition starts_with (p s : str) : option str :=
  if str_eqb p (firstn (List.length p) s) then Some (skipn (List.length p) s) else None.

(** [d[k] = v] on a dict: a key that is there keeps its place. *)
Fixpoint dict_set (k : str) (v : jvalue) (d : list (str * jvalue)) : list (str * jvalue) :=
  match d with
  | [] => [(k, v)]
  | (k', v') :: rest =>
      if str_eqb k k' then (k, v) :: rest else (k', v') :: dict_set k v rest
  end.

(** The recursive descent, with the nesting depth and the number of
    elements bounded by the fuel. *)
Fixpoint scan (fuel : nat) (s : str) : option (jvalue * str) :=
  match fuel with
  | O => None
  | S fuel =>
      match s with
      | [] => None
      | c :: r =>
          if c =? 34 then
            match string_body [] r with
            | Some (t, rest) => Some (VStr t, rest)
            | None => None
            end
          else if c =? 123 then
            match skip_ws r with
            | c1 :: r1 => if c1 =? 125 then Some (VDict [], r1) else members fuel [] (c1 :: r1)
            | [] => None
            end
          else if c =? 91 then
            match skip_ws r with
            | c1 :: r1 => if c1 =? 93 then Some (VList [], r1) else elements fuel [] (c1 :: r1)
            | [] => None
            end
          else if c =? 110 then
            match starts_with (lit "ull") r with
            | Some rest => Some (VNone, rest)
            | None => None
            end
          else if c =? 116 then
            match starts_with (lit "rue") r with
            | Some rest => Some (VBool true, rest)
            | None => None
            end
          else if c =? 102 then
            match starts_with (lit "alse") r with
            | Some rest => Some (VBool false, rest)
            | None => None
            end
          else number s
      end
  end
with elements (fuel : nat) (acc : list jvalue) (s : str) : option (jvalue * str) :=
  match fuel with
  | O => None
  | S fuel =>
      match scan fuel s with
      | None => None
      | Some (v, rest) =>
          match skip_ws rest with
          | c :: r =>
              if c =? 93 then Some (VList (rev (v :: acc)), r)
              else if c =? 44 then elements fuel (v :: acc) (skip_ws r)
              else None
          | [] => None
          end
      end
  end
with members (fuel : nat) (acc : list (str * jvalue)) (s : str) : option (jvalue * str) :=
  match fuel with
  | O => None
  | S fuel =>
      match s with
      | q :: r0 =>
          if q =? 34 then
            match string_body [] r0 with
            | None => None
            | Some (k, r1) =>
                match skip_ws r1 with
                | colon :: r2 =>
                    if colon =? 58 then
                      match scan fuel (skip_ws r2) with
                      | None => None
                      | Some (v, rest) =>
                          match skip_ws rest with
                          | c :: r =>
                              if c =? 125 then Some (VDict (dict_set k v acc), r)
                              else if c =? 44 then members fuel (dict_set k v acc) (skip_ws r)
                              else None
                          | [] => None
                          end
                      end
                    else None
                | [] => None
                end
            end
          else None
      | [] => None
      end
  end.

Definition loads (s : str) : option jvalue :=
  match scan (S (List.length s)) (skip_ws s) with
  | Some (v, rest) =>
      match skip_ws rest with
      | [] => Some v
      | _ => None
      end
  | None => None
  end.

(** [repr] of a str of printable ASCII characters; the escapes of the
    other characters follow CPython only for newline, return and tab. *)
Definition ascii_repr (s : str) : str :=
  let quote : N :=
    if existsb (N.eqb 39) s && negb (existsb (N.eqb 34) s) then 34 else 39 in
  let esc (c : N) : str :=
    if (c =? 92) || (c =? quote) then [92; c]
    else if c =? 10 then [92; 110]
    else if c =? 13 then [92; 114]
    else if c =? 9 then [92; 116]
    else [c] in
  quote :: flat_map esc s ++ [quote].

#[global] Instance runtime : Runtime := {|
  pyfloat := Empty_set;
  float_repr := fun f => match f with end;
  float_bool := fun f => match f with end;
  str_repr := ascii_repr;
  uni_cased := fun _ => false;
  uni_title := fun c => [c];
  uni_lower := fun _ _ c => [c];
  json_loads := loads
|}.

End Reference.

(** An ASCII literal in which the apostrophe stands for the double quote
    of JSON. *)
Definition json_text (s : string) : str :=
  map (fun c => if c =? 39 then 34 else c) (lit s).

(** ** A runtime with the constants beyond JSON

    [json.loads] accepts three words that are no JSON: [NaN], [Infinity]
    and [-Infinity], and returns a float for them.  This runtime is the
    reference runtime with a decoder that accepts the three words as a
    whole line; its floats are the three values. *)

Module NonFinite.

Inductive nonfinite : Type := NaN | Infinity | NegInfinity.

(** [repr(float("nan"))] and the like. *)
Definition repr_float (f : nonfinite) : str :=
  match f with
  | NaN => lit "nan"
  | Infinity => lit "inf"
  | NegInfinity => lit "-inf"
  end.

Fixpoint lift (v : Reference.jvalue) : pyval nonfinite :=
  match v with
  | VNone => VNone
  | VBool b => VBool b
  | VInt z => VInt z
  | VFloat f => match f with end
  | VStr s => VStr s
  | VList l => VList (map lift l)
  | VDict d => VDict (map (fun kv => (fst kv, lift (snd kv))) d)
  end.

Definition whole_word (w : string) (s : str) : bool :=
  match Reference.starts_with (lit w) (Reference.skip_ws s) with
  | Some rest => match Reference.skip_ws rest with [] => true | _ => false end
  | None => false
  end.

Definition loads (s : str) : option (pyval nonfinite) :=
  if whole_word "NaN" s then Some (VFloat NaN)
  else if whole_word "Infinity" s then Some (VFloat Infinity)
  else if whole_word "-Infinity" s then Some (VFloat NegInfinity)
  else option_map lift (Reference.loads s).

(** None of the three floats is zero, so that each of them is true. *)
Definition runtime : Runtime := {|
  pyfloat := nonfinite;
  float_repr := repr_float;
  float_bool := fun _ => true;
  str_repr := Reference.ascii_repr;
  uni_cased := fun _ => false;
  uni_title := fun c => [c];
  uni_lower := fun _ _ c => [c];
  json_loads := loads
|}.

End NonFinite.

(** A JSON text begins, after white space, with a brace, a bracket, a
    double quote, a minus sign, a digit, or the first letter of [true],
    [false] or [null]; a line that begins otherwise is no JSON text. *)
Definition may_begin_json (line : str) : bool :=
  match Reference.skip_ws line with
  | c :: _ =>
      (c =? 123) || (c =? 91) || (c =? 34) || (c =? 45) || Reference.is_digit c
      || (c =? 116) || (c =? 102) || (c =? 110)
  | [] => false
  end.

(** ** The vocabulary of the properties *)

Section Vocabulary.

Context {R : Runtime}.

Definition is_object (v : value) : bool :=
  match v with
  | VDict _ => true
  | _ => false
  end.

(** A field of a decoded record; a value that is no object has none. *)
Definition field (v : value) (k : str) : option value :=
  match v with
  | VDict d => dict_get k d
  | _ => None
  end.

Definition field_is (v : value) (k : str) (p : value -> bool) : bool :=
  match field v k with
  | Some x => p x
  | None => false
  end.

Definition is_compiler_message (v : value) : bool :=
  field_is v (lit "reason") (fun r => eq_str r (lit "compiler-message")).

(** The filter as the specification words it: the reason is
    "compiler-message", the level of the message is "error" or "warning",
    and the spans of the message are not empty. *)
Definition passes_filter (v : value) : bool :=
  is_compiler_message v
  && field_is v (lit "message")
       (fun m => field_is m (lit "level") (fun l => in_strs l [lit "error"; lit "warning"])
                 && field_is m (lit "spans") truthy).

(** The message of a record is absent or an object. *)
Definition message_is_sound (v : value) : bool :=
  match field v (lit "message") with
  | None | Some (VDict _) => true
  | Some _ => false
  end.

Definition or_default (o : option value) (default : value) : value :=
  match o with
  | Some v => v
  | None => default
  end.

(** The five strings appended for one record: the level [lv], the message
    object [m], the first span [sp] and the rendered text [r]. *)
Definition block (lv : str) (m sp : list (str * value)) (r : str) : list str :=
  [ lit "### " ++ title lv ++ lit ": "
      ++ format (or_default (dict_get (lit "message") m) (VStr (lit "")));
    lit "File: " ++ format (or_default (dict_get (lit "file_name") sp) VNone)
      ++ lit ":" ++ format (or_default (dict_get (lit "line_start") sp) VNone);
    lit "```rust";
    rstrip r;
    lit "```" ++ nl ].

(** The same block as the lines of the document: the closing fence and
    the empty line after it. *)
Definition block_lines (lv : str) (m sp : list (str * value)) (r : str) : list str :=
  [ lit "### " ++ title lv ++ lit ": "
      ++ format (or_default (dict_get (lit "message") m) (VStr (lit "")));
    lit "File: " ++ format (or_default (dict_get (lit "file_name") sp) VNone)
      ++ lit ":" ++ format (or_default (dict_get (lit "line_start") sp) VNone);
    lit "```rust";
    rstrip r;
    lit "```";
    [] ].

(** A line that holds a diagnostic the script can render: a record of
    reason "compiler-message" whose message is an object [m] of level [lv],
    error or warning, whose spans are a list that starts with an object
    [sp], and whose rendered text is the str [r] (the empty str when the
    field is absent). *)
Definition diagnostic (line : str) (lv : str) (m sp : list (str * value)) (r : str) : Prop :=
  (exists d,
      json_loads line = Some (VDict d)
      /\ dict_get (lit "reason") d = Some (VStr (lit "compiler-message"))
      /\ dict_get (lit "message") d = Some (VDict m))
  /\ dict_get (lit "level") m = Some (VStr lv)
  /\ (lv = lit "error" \/ lv = lit "warning")
  /\ (exists rest, dict_get (lit "spans") m = Some (VList (VDict sp :: rest)))
  /\ or_default (dict_get (lit "rendered") m) (VStr (lit "")) = VStr r.

(** The line adds a block to the buffer, whatever the buffer holds. *)
Definition contributes (line : str) : Prop :=
  exists blk, blk <> []
    /\ forall st, body line st = inr {| out := out st ++ blk; has_messages := true |}.

(** The parts of a diagnostic, computed from the line: [diagnostic] as a
    function. *)
Definition parts (line : str)
  : option (str * list (str * value) * list (str * value) * str) :=
  match json_loads line with
  | Some (VDict d) =>
      match dict_get (lit "reason") d, dict_get (lit "message") d with
      | Some (VStr reason), Some (VDict m) =>
          match dict_get (lit "level") m,
                dict_get (lit "spans") m,
                or_default (dict_get (lit "rendered") m) (VStr (lit "")) with
          | Some (VStr lv), Some (VList (VDict sp :: _)), VStr r =>
              if str_eqb reason (lit "compiler-message")
                 && in_strs (VStr lv) [lit "error"; lit "warning"]
              then Some (lv, m, sp, r)
              else None
          | _, _, _ => None
          end
      | _, _ => None
      end
  | _ => None
  end.

(** The block of a line, as appended to the buffer and as lines of the
    document; empty for a line that is no diagnostic. *)
Definition block_of (line : str) : list str :=
  match parts line with
  | Some (lv, m, sp, r) => block lv m sp r
  | None => []
  end.

Definition lines_of (line : str) : list str :=
  match parts line with
  | Some (lv, m, sp, r) => block_lines lv m sp r
  | None => []
  end.

(** The first span of the message is an object, and its rendered text is
    absent or a str. *)
Definition well_typed (v : value) : bool :=
  field_is v (lit "message")
    (fun m =>
       field_is m (lit "spans")
         (fun s => match s with VList (VDict _ :: _) => true | _ => false end)
       && match field m (lit "rendered") with
          | None | Some (VStr _) => true
          | Some _ => false
          end).

(** The line decodes to a record that passes the filter. *)
Definition qualifies (line : str) : bool :=
  match json_loads line with
  | Some v => passes_filter v
  | None => false
  end.

Definition renderable (line : str) : bool :=
  match json_loads line with
  | Some v => well_typed v
  | None => false
  end.

(** A line that the script can drop without an exception: it does not
    decode, or it decodes to an object whose message, when the reason is
    "compiler-message", is absent or an object. *)
Definition sound (line : str) : bool :=
  match json_loads line with
  | None => true
  | Some v => is_object v && (negb (is_compiler_message v) || message_is_sound v)
  end.

(** [inserts f g]: [g] is [f] with lines that do not decode put in at any
    positions. *)
Inductive inserts : list str -> list str -> Prop :=
| inserts_nil : inserts [] []
| inserts_keep (l : str) (f g : list str) : inserts f g -> inserts (l :: f) (l :: g)
| inserts_junk (j : str) (f g : list str) :
    json_loads j = None -> inserts f g -> inserts f (j :: g).

(** First letter in upper case, the rest in lower case. *)
Definition capitalize (s : str) : str :=
  match s with
  | [] => []
  | c :: rest => ascii_upper c :: map ascii_lower rest
  end.

End Vocabulary.

(** ** Lines to run the script on *)

Module Lines.

(** Each line ends in its newline, as the iteration over the file yields
    it. *)

Definition mismatched_types : str :=
  json_text "{'reason':'compiler-message','message':{'message':'mismatched types','level':'error','spans':[{'file_name':'src/main.rs','line_start':10}],'rendered':'error: mismatched types\n --> src/main.rs:10'}}" ++ nl.

Definition unused_variable : str :=
  json_text "{'reason':'compiler-message','message':{'rendered':'warning: unused variable\n --> src/lib.rs:3\n\n','spans':[{'line_start':3,'file_name':'src/lib.rs'},{'line_start':9}],'level':'warning','message':'unused variable'}}" ++ nl.

Definition artifact : str :=
  json_text "{'reason':'compiler-artifact','fresh':true}" ++ nl.

Definition note : str :=
  json_text "{'reason':'compiler-message','message':{'level':'note','message':'see above','spans':[{'file_name':'src/lib.rs'}]}}" ++ nl.

Definition no_spans : str :=
  json_text "{'reason':'compiler-message','message':{'level':'error','message':'aborting','spans':[]}}" ++ nl.

Definition compiling : str := lit "   Compiling demo v0.1.0 (/tmp/demo)" ++ nl.

Definition array : str := lit "[1]" ++ nl.

Definition number_span : str :=
  json_text "{'reason':'compiler-message','message':{'level':'error','message':'E','spans':[5]}}" ++ nl.

Definition null_message : str :=
  json_text "{'reason':'compiler-message','message':null}" ++ nl.

Definition text_message : str :=
  json_text "{'reason':'compiler-message','message':'mismatched types'}" ++ nl.

(** Two kinds of diagnostics, lines that are no diagnostics between
    them, and the first diagnostic once more at the end. *)
Definition mixed : list str :=
  [unused_variable; compiling; mismatched_types; artifact; note; unused_variable].

Definition mixed_report : str :=
  lit "# Cargo Check Report" ++ nl
  ++ nl
  ++ lit "### Warning: unused variable" ++ nl
  ++ lit "File: src/lib.rs:3" ++ nl
  ++ lit "```rust" ++ nl
  ++ lit "warning: unused variable" ++ nl
  ++ lit " --> src/lib.rs:3" ++ nl
  ++ lit "```" ++ nl
  ++ nl
  ++ lit "### Error: mismatched types" ++ nl
  ++ lit "File: src/main.rs:10" ++ nl
  ++ lit "```rust" ++ nl
  ++ lit "error: mismatched types" ++ nl
  ++ lit " --> src/main.rs:10" ++ nl
  ++ lit "```" ++ nl
  ++ nl
  ++ lit "### Warning: unused variable" ++ nl
  ++ lit "File: src/lib.rs:3" ++ nl
  ++ lit "```rust" ++ nl
  ++ lit "warning: unused variable" ++ nl
  ++ lit " --> src/lib.rs:3" ++ nl
  ++ lit "```" ++ nl.

End Lines.

(** Lines with ill-typed or unread fields. *)

Module Cases.


Definition bare_warning : str :=
  json_text "{'reason':'compiler-message','message':{'level':'warning','spans':[{}]}}" ++ nl.

Definition build_script : str :=
  json_text "{'reason':'build-script-executed','message':5}" ++ nl.

Definition ill_typed_note : str :=
  json_text "{'reason':'compiler-message','message':{'level':'note','spans':5,'rendered':null}}" ++ nl.

Definition null_spans : str :=
  json_text "{'reason':'compiler-message','message':{'level':'error','spans':null,'rendered':7}}" ++ nl.

(** The warning of [Lines.unused_variable] with other fields around it and
    without its second span. *)
Definition unused_variable_verbose : str :=
  json_text "{'package_id':'demo 0.1.0','reason':'compiler-message','message':{'code':null,'rendered':'warning: unused variable\n --> src/lib.rs:3\n\n','children':[],'spans':[{'line_start':3,'file_name':'src/lib.rs'}],'level':'warning','message':'unused variable'}}" ++ nl.

Definition true_for_spans : str :=
  json_text "{'reason':'compiler-message','message':{'level':'warning','message':'unused','spans':true}}" ++ nl.

(** A word that is no JSON and that [json.loads] decodes to a float. *)
Definition nan : str := lit "NaN" ++ nl.

End Cases.

(** ** Strings and the error monad *)

Lemma str_eqb_eq (a b : str) : str_eqb a b = true <-> a = b.
Proof.
  revert b; induction a as [|x a IH]; intros [|y b]; simpl; split;
    try reflexivity; try discriminate.
  - intros H. apply andb_true_iff in H as [Hx Hab].
    apply N.eqb_eq in Hx. apply IH in Hab. congruence.
  - intros H. injection H as -> ->.
    rewrite N.eqb_refl. simpl. apply IH. reflexivity.
Qed.

Lemma str_eqb_refl (a : str) : str_eqb a a = true.
Proof. apply str_eqb_eq. reflexivity. Qed.

Lemma join_last (sep : str) (xs : list str) (x : str) :
  exists front, join sep (xs ++ [x]) = front ++ x.
Proof.
  induction xs as [|y xs [front IH]].
  - exists []. reflexivity.
  - exists (y ++ sep ++ front). cbn [app].
    replace (join sep (y :: xs ++ [x])) with (y ++ sep ++ join sep (xs ++ [x]))
      by (destruct xs; reflexivity).
    rewrite IH, <- !app_assoc. reflexivity.
Qed.

Lemma join_cons (sep x : str) (xs : list str) :
  xs <> [] -> join sep (x :: xs) = x ++ sep ++ join sep xs.
Proof. destruct xs; [congruence | reflexivity]. Qed.

Lemma heading_join (xs : list str) :
  xs <> [] ->
  (lit "# Cargo Check Report" ++ nl ++ nl) ++ join nl xs
  = join nl ([lit "# Cargo Check Report"; []] ++ xs).
Proof.
  intros H. cbn [app]. rewrite !join_cons by (assumption || discriminate).
  rewrite <- !app_assoc. reflexivity.
Qed.

(** An element that ends in the separator reads as the element and an
    empty one after it. *)
Lemma join_split_last (sep a : str) (xs ys : list str) :
  join sep (xs ++ (a ++ sep) :: ys) = join sep (xs ++ a :: [] :: ys).
Proof.
  induction xs as [|x xs IH].
  - simpl. destruct ys as [|y ys].
    + rewrite app_nil_r. reflexivity.
    + rewrite <- app_assoc. reflexivity.
  - change ((x :: xs) ++ (a ++ sep) :: ys) with (x :: (xs ++ (a ++ sep) :: ys)).
    change ((x :: xs) ++ a :: [] :: ys) with (x :: (xs ++ a :: [] :: ys)).
    rewrite !join_cons by (destruct xs; discriminate).
    rewrite IH. reflexivity.
Qed.

Section Lemmas.

Context {R : Runtime}.

Lemma in_strs_level (v : value) :
  in_strs v [lit "error"; lit "warning"] = true ->
  exists lv, v = VStr lv /\ (lv = lit "error" \/ lv = lit "warning").
Proof.
  unfold in_strs, existsb. intros H.
  destruct v; try discriminate H.
  exists s. split; [reflexivity|].
  apply orb_true_iff in H as [H|H].
  - left. apply str_eqb_eq. exact H.
  - rewrite orb_false_r in H. right. apply str_eqb_eq. exact H.
Qed.

Lemma level_in_strs (lv : str) :
  lv = lit "error" \/ lv = lit "warning" ->
  in_strs (VStr lv) [lit "error"; lit "warning"] = true.
Proof. intros [-> | ->]; reflexivity. Qed.

(** ** The loop body *)

(** A diagnostic adds its block and sets the flag. *)
Lemma body_diagnostic (line lv : str) (m sp : list (str * value)) (r : str) (st : state) :
  diagnostic line lv m sp r ->
  body line st = inr {| out := out st ++ block lv m sp r; has_messages := true |}.
Proof.
  intros [[d [Hd [Hreason Hmsg]]] [Hlevel [Hlv [[rest Hspans] Hrendered]]]].
  unfold body. rewrite Hd.
  cbn [get bind ret raise]. rewrite Hreason.
  cbn [get bind ret raise eq_str]. rewrite str_eqb_refl.
  cbn [negb]. rewrite Hmsg.
  cbn [get bind ret raise]. rewrite Hlevel.
  cbn [get bind ret raise]. rewrite (level_in_strs lv Hlv).
  cbn [negb]. rewrite Hspans.
  cbn [get bind ret raise truthy negb getitem0 title_of].
  unfold or_default in Hrendered.
  destruct (dict_get (lit "rendered") m) as [rv|];
    [subst rv | injection Hrendered as <-];
    cbn [bind ret rstrip_of];
    unfold block, or_default, append, set_has_messages; cbn [out has_messages];
    destruct (dict_get (lit "message") m), (dict_get (lit "file_name") sp),
      (dict_get (lit "line_start") sp);
    cbn [bind ret]; rewrite <- !app_assoc; reflexivity.
Qed.

Lemma body_undecodable (line : str) (st : state) :
  json_loads line = None -> body line st = inr st.
Proof. intros H. unfold body. rewrite H. reflexivity. Qed.

Lemma body_not_object (line : str) (v : value) (st : state) :
  json_loads line = Some v -> is_object v = false -> body line st = inl AttributeError.
Proof.
  intros H Hv. unfold body. rewrite H.
  destruct v; try discriminate Hv; reflexivity.
Qed.

Lemma body_message_not_object (line : str) (d : list (str * value)) (m : value) (st : state) :
  json_loads line = Some (VDict d) ->
  dict_get (lit "reason") d = Some (VStr (lit "compiler-message")) ->
  dict_get (lit "message") d = Some m ->
  is_object m = false ->
  body line st = inl AttributeError.
Proof.
  intros Hd Hreason Hmsg Hm. unfold body. rewrite Hd.
  cbn [get bind ret raise]. rewrite Hreason.
  cbn [get bind ret raise eq_str]. rewrite str_eqb_refl.
  cbn [negb]. rewrite Hmsg.
  destruct m; try discriminate Hm; reflexivity.
Qed.

(** The three ways the body can go, none of which looks at the buffer:
    the line is dropped, it is a diagnostic, or an exception ends the run. *)
Lemma body_cases (line : str) :
  (qualifies line = false /\ forall st, body line st = inr st)
  \/ (qualifies line = true /\ exists lv m sp r, diagnostic line lv m sp r)
  \/ (exists e, forall st, body line st = inl e).
Proof.
  unfold qualifies, body.
  destruct (json_loads line) as [v|] eqn:Hv; [|left; split; [reflexivity | reflexivity]].
  destruct v as [ | | | | | |d];
    try (right; right; exists AttributeError; reflexivity).
  unfold passes_filter, is_compiler_message, field_is, field.
  cbn [get bind ret raise].
  destruct (dict_get (lit "reason") d) as [reason|] eqn:Hreason;
    cbn [bind ret]; [|left; split; reflexivity].
  destruct (eq_str reason (lit "compiler-message")) eqn:Hcm;
    cbn [negb andb]; [|left; split; reflexivity].
  destruct reason as [ | | | |rs| | ]; try discriminate Hcm.
  apply str_eqb_eq in Hcm. subst rs.
  destruct (dict_get (lit "message") d) as [msg|] eqn:Hmsg; cbn [bind ret get];
    [|left; split; reflexivity].
  destruct msg as [ | | | | | |m];
    try (right; right; exists AttributeError; reflexivity).
  cbn [get bind ret raise].
  destruct (dict_get (lit "level") m) as [level|] eqn:Hlevel; cbn [bind ret];
    [|left; split; reflexivity].
  destruct (in_strs level [lit "error"; lit "warning"]) eqn:Hin;
    cbn [negb andb]; [|left; split; reflexivity].
  apply in_strs_level in Hin as [lv [-> Hlv]].
  destruct (dict_get (lit "spans") m) as [spans|] eqn:Hspans; cbn [bind ret];
    [|left; split; reflexivity].
  destruct (truthy spans) eqn:Htruthy; cbn [negb];
    [|left; split; reflexivity].
  destruct spans as [ |b|z|f|s|l|sd]; try discriminate Htruthy;
    try (right; right; exists TypeError; reflexivity);
    try (right; right; exists KeyError; reflexivity).
  - (* a str: its first character has no [get] *)
    destruct s as [|c s]; [discriminate Htruthy|].
    right; right; exists AttributeError; intros st.
    cbn [getitem0 bind ret title_of get].
    destruct (dict_get (lit "message") m); reflexivity.
  - destruct l as [|span rest]; [discriminate Htruthy|].
    cbn [getitem0 bind ret title_of].
    destruct span as [ | | | | | |sp];
      try (right; right; exists AttributeError; intros st;
           destruct (dict_get (lit "message") m); reflexivity).
    destruct (or_default (dict_get (lit "rendered") m) (VStr (lit ""))) as [ | | | |r| | ] eqn:Hr;
      try (right; right; exists AttributeError; intros st; unfold or_default in Hr;
           cbn [get bind ret];
           destruct (dict_get (lit "message") m), (dict_get (lit "file_name") sp),
             (dict_get (lit "line_start") sp), (dict_get (lit "rendered") m);
           cbn [bind ret]; try discriminate Hr; subst; reflexivity).
    right; left. split; [reflexivity|].
    exists lv, m, sp, r. unfold diagnostic.
    split; [exists d; auto|].
    split; [assumption|]. split; [assumption|].
    split; [exists rest; assumption | assumption].
Qed.

Lemma parts_diagnostic (line lv : str) (m sp : list (str * value)) (r : str) :
  parts line = Some (lv, m, sp, r) <-> diagnostic line lv m sp r.
Proof.
  unfold parts, diagnostic. split.
  - destruct (json_loads line) as [[ | | | | | |d]|] eqn:Hd; try discriminate.
    destruct (dict_get (lit "reason") d) as [[ | | | |reason| | ]|] eqn:Hreason;
      try discriminate.
    destruct (dict_get (lit "message") d) as [[ | | | | | |m']|] eqn:Hmsg;
      try discriminate.
    destruct (dict_get (lit "level") m') as [[ | | | |lv'| | ]|] eqn:Hlevel; try discriminate.
    destruct (dict_get (lit "spans") m') as [[ | | | | |[|[ | | | | | |sp'] rest]| ]|] eqn:Hspans;
      try discriminate.
    destruct (or_default (dict_get (lit "rendered") m') (VStr (lit ""))) as [ | | | |r'| | ] eqn:Hr;
      try discriminate.
    destruct (str_eqb reason (lit "compiler-message")) eqn:Hcm; try discriminate.
    destruct (in_strs (VStr lv') [lit "error"; lit "warning"]) eqn:Hin; try discriminate.
    cbn [andb]. intros H. injection H as <- <- <- <-.
    apply str_eqb_eq in Hcm. subst reason.
    apply in_strs_level in Hin as [lv0 [Heq Hlv]]. injection Heq as <-.
    split; [exists d; auto|].
    split; [assumption|]. split; [assumption|].
    split; [exists rest; assumption | assumption].
  - intros [[d [Hd [Hreason Hmsg]]] [Hlevel [Hlv [[rest Hspans] Hrendered]]]].
    rewrite Hd, Hreason, Hmsg, Hlevel, Hspans, Hrendered.
    rewrite str_eqb_refl, (level_in_strs lv Hlv). reflexivity.
Qed.

Lemma diagnostic_qualifies (line lv : str) (m sp : list (str * value)) (r : str) :
  diagnostic line lv m sp r -> qualifies line = true /\ renderable line = true.
Proof.
  intros [[d [Hd [Hreason Hmsg]]] [Hlevel [Hlv [[rest Hspans] Hrendered]]]].
  unfold qualifies, renderable, passes_filter, well_typed, is_compiler_message,
    field_is, field.
  rewrite Hd, Hreason, Hmsg, Hlevel, Hspans.
  cbn [eq_str truthy]. rewrite str_eqb_refl, (level_in_strs lv Hlv).
  split; [reflexivity|].
  unfold or_default in Hrendered.
  destruct (dict_get (lit "rendered") m) as [rv|]; [subst rv|]; reflexivity.
Qed.

Lemma qualifies_renderable (line : str) :
  qualifies line = true -> renderable line = true ->
  exists lv m sp r, diagnostic line lv m sp r.
Proof.
  unfold qualifies, renderable, passes_filter, well_typed, is_compiler_message,
    field_is, field.
  destruct (json_loads line) as [[ | | | | | |d]|] eqn:Hd; try discriminate.
  destruct (dict_get (lit "reason") d) as [reason|] eqn:Hreason; try discriminate.
  destruct (dict_get (lit "message") d) as [[ | | | | | |m]|] eqn:Hmsg;
    try (rewrite andb_false_r; discriminate); try discriminate.
  destruct (dict_get (lit "level") m) as [level|] eqn:Hlevel;
    try (rewrite andb_false_r; discriminate).
  destruct (dict_get (lit "spans") m) as [[ | | | | |[|[ | | | | | |sp] rest]| ]|] eqn:Hspans;
    try discriminate.
  intros H1 H2.
  apply andb_true_iff in H1 as [Hcm H1].
  apply andb_true_iff in H1 as [Hin _].
  destruct reason as [ | | | |rs| | ]; try discriminate Hcm.
  apply str_eqb_eq in Hcm. subst rs.
  apply in_strs_level in Hin as [lv [-> Hlv]].
  cbn [andb] in H2.
  assert (Hr : exists r, or_default (dict_get (lit "rendered") m) (VStr (lit "")) = VStr r).
  { unfold or_default.
    destruct (dict_get (lit "rendered") m) as [[ | | | |r| | ]|]; try discriminate H2;
      eexists; reflexivity. }
  destruct Hr as [r Hr].
  exists lv, m, sp, r. unfold diagnostic.
  split; [exists d; auto|].
  split; [assumption|]. split; [assumption|].
  split; [exists rest; assumption | assumption].
Qed.

Lemma parts_none (line : str) : qualifies line = false -> parts line = None.
Proof.
  intros Hq. destruct (parts line) as [[[[lv m] sp] r]|] eqn:Hp; [|reflexivity].
  apply parts_diagnostic, diagnostic_qualifies in Hp as [Hp _]. congruence.
Qed.

(** A record that the filter rejects leaves the buffer as it is. *)
Lemma body_rejected (line : str) (st : state) :
  qualifies line = false -> sound line = true -> body line st = inr st.
Proof.
  intros Hq Hs.
  destruct (body_cases line) as [[_ H] | [[H _] | [e H]]];
    [apply H | congruence |].
  exfalso. specialize (H initial). revert Hq Hs H.
  unfold qualifies, sound, body, passes_filter, message_is_sound,
    is_compiler_message, field_is, field.
  destruct (json_loads line) as [[ | | | | | |d]|]; try discriminate.
  cbn [get bind ret raise is_object andb].
  destruct (dict_get (lit "reason") d) as [reason|]; cbn [bind ret]; try discriminate.
  destruct (eq_str reason (lit "compiler-message")); cbn [negb andb orb]; try discriminate.
  destruct (dict_get (lit "message") d) as [[ | | | | | |m]|]; cbn [bind ret get];
    try discriminate.
  destruct (dict_get (lit "level") m) as [level|]; cbn [bind ret]; try discriminate.
  destruct (in_strs level [lit "error"; lit "warning"]); cbn [negb andb]; try discriminate.
  destruct (dict_get (lit "spans") m) as [spans|]; cbn [bind ret]; try discriminate.
  destruct (truthy spans); cbn [negb]; discriminate.
Qed.

(** What one turn of the loop does to the state, when it returns. *)
Lemma body_block_of (line : str) (st st' : state) :
  body line st = inr st' ->
  st' = {| out := out st ++ block_of line;
           has_messages := has_messages st || qualifies line |}.
Proof.
  intros Hb. unfold block_of.
  destruct (body_cases line) as [[Hq H] | [[Hq [lv [m [sp [r Hd]]]]] | [e H]]].
  - rewrite H in Hb. injection Hb as <-.
    rewrite (parts_none line Hq), Hq, app_nil_r, orb_false_r.
    destruct st; reflexivity.
  - rewrite (body_diagnostic _ _ _ _ _ st Hd) in Hb. injection Hb as <-.
    rewrite (proj2 (parts_diagnostic _ _ _ _ _) Hd), Hq, orb_true_r. reflexivity.
  - rewrite H in Hb. discriminate Hb.
Qed.

(** ** The loop *)

Lemma loop_app (f g : list str) (st : state) :
  loop (f ++ g) st = (st' <- loop f st ;; loop g st').
Proof.
  revert st; induction f as [|l f IH]; intros st; simpl; [reflexivity|].
  destruct (body l st) as [e|st1]; simpl; [reflexivity | apply IH].
Qed.

Lemma loop_state (f : list str) (st st' : state) :
  loop f st = inr st' ->
  st' = {| out := out st ++ flat_map block_of f;
           has_messages := has_messages st || existsb qualifies f |}.
Proof.
  revert st; induction f as [|l f IH]; intros st; simpl.
  - intros H. injection H as <-. rewrite app_nil_r, orb_false_r.
    destruct st; reflexivity.
  - destruct (body l st) as [e|st1] eqn:Hb; simpl; [discriminate|].
    intros H. apply IH in H. apply body_block_of in Hb. subst st1.
    simpl in H. rewrite <- app_assoc, <- orb_assoc in H. exact H.
Qed.

Lemma loop_raises (f g : list str) (line : str) (st : state) :
  (exists e, forall st1, body line st1 = inl e) ->
  exists e, loop (f ++ line :: g) st = inl e.
Proof.
  intros [e He]. rewrite loop_app.
  destruct (loop f st) as [e1|st1]; simpl; [exists e1; reflexivity|].
  rewrite He. exists e. reflexivity.
Qed.

Lemma loop_inserts (f g : list str) :
  inserts f g -> forall st, loop g st = loop f st.
Proof.
  induction 1 as [|l f g _ IH|j f g Hj _ IH]; intros st; simpl.
  - reflexivity.
  - destruct (body l st); simpl; [reflexivity | apply IH].
  - rewrite (body_undecodable j st Hj). simpl. apply IH.
Qed.

Lemma block_of_filter (f : list str) :
  flat_map block_of (filter qualifies f) = flat_map block_of f.
Proof.
  induction f as [|l f IH]; simpl; [reflexivity|].
  destruct (qualifies l) eqn:Hq; simpl; rewrite IH; [reflexivity|].
  unfold block_of at 2. rewrite (parts_none l Hq). reflexivity.
Qed.

Lemma filter_nonempty (f : list str) :
  existsb qualifies f = true <-> filter qualifies f <> [].
Proof.
  induction f as [|l f IH]; simpl.
  - split; [discriminate | congruence].
  - destruct (qualifies l); simpl; [split; [discriminate | reflexivity] | exact IH].
Qed.

(** The text written by a run that reaches the write. *)
Lemma check_document (f : list str) (doc : str) :
  check f = inr doc ->
  doc = if existsb qualifies f
        then heading ++ join nl (flat_map block_of (filter qualifies f))
        else success_document.
Proof.
  unfold check. destruct (loop f initial) as [e|st] eqn:Hl; simpl; [discriminate|].
  intros H. injection H as <-. apply loop_state in Hl. subst st.
  unfold document. simpl. rewrite block_of_filter.
  destruct (existsb qualifies f); reflexivity.
Qed.

(** In a run that reaches the write every qualifying line is a
    diagnostic. *)
Lemma check_diagnostics (f : list str) (doc : str) :
  check f = inr doc ->
  Forall (fun l => exists lv m sp r, diagnostic l lv m sp r) (filter qualifies f).
Proof.
  unfold check. destruct (loop f initial) as [e|st] eqn:Hl; simpl; [discriminate|].
  intros _. clear doc. revert Hl. generalize initial. revert st.
  induction f as [|l f IH]; intros st st0; simpl; [constructor|].
  destruct (body l st0) as [e|st1] eqn:Hb; simpl; [discriminate|].
  intros Hl. specialize (IH _ _ Hl).
  destruct (qualifies l) eqn:Hq; [|exact IH].
  constructor; [|exact IH].
  destruct (body_cases l) as [[Hq' _] | [[_ Hd] | [e H]]];
    [congruence | exact Hd | rewrite H in Hb; discriminate Hb].
Qed.

Lemma join_block_step (xs ys : list str) (h loc fence r : str) :
  join nl (xs ++ [h; loc; fence; r; lit "```" ++ nl] ++ ys)
  = join nl (xs ++ [h; loc; fence; r; lit "```"; []] ++ ys).
Proof.
  change ([h; loc; fence; r; lit "```" ++ nl] ++ ys)
    with ([h; loc; fence; r] ++ (lit "```" ++ nl) :: ys).
  rewrite app_assoc, join_split_last, <- app_assoc. reflexivity.
Qed.

Lemma join_blocks_lines (qs : list str) (xs : list str) :
  join nl (xs ++ flat_map block_of qs) = join nl (xs ++ flat_map lines_of qs).
Proof.
  revert xs; induction qs as [|l qs IH]; intros xs; cbn [flat_map]; [reflexivity|].
  unfold block_of at 1, lines_of at 1.
  destruct (parts l) as [[[[lv m] sp] r]|]; cbn [app]; [|apply IH].
  unfold block, block_lines.
  rewrite join_block_step, app_assoc, IH, <- app_assoc. reflexivity.
Qed.

(** ** The buffer does not steer the loop *)

(** A turn of the loop from any state is the turn from the empty buffer,
    with what it appends put after what the buffer holds. *)
Lemma body_frame (line : str) (st : state) :
  body line st
  = match body line initial with
    | inl e => inl e
    | inr s => inr {| out := out st ++ out s;
                      has_messages := has_messages st || has_messages s |}
    end.
Proof.
  destruct (body_cases line) as [[_ H] | [[_ [lv [m [sp [r Hd]]]]] | [e H]]].
  - rewrite (H st), (H initial). cbn [out has_messages initial].
    rewrite app_nil_r, orb_false_r. destruct st; reflexivity.
  - rewrite (body_diagnostic _ _ _ _ _ st Hd), (body_diagnostic _ _ _ _ _ initial Hd).
    cbn [out has_messages initial app]. rewrite orb_true_r. reflexivity.
  - rewrite (H st), (H initial). reflexivity.
Qed.

Lemma loop_frame (f : list str) (st : state) :
  loop f st
  = match loop f initial with
    | inl e => inl e
    | inr s => inr {| out := out st ++ out s;
                      has_messages := has_messages st || has_messages s |}
    end.
Proof.
  revert st. induction f as [|l f IH]; intros st; cbn [loop].
  - cbn [ret out has_messages initial]. rewrite app_nil_r, orb_false_r.
    destruct st; reflexivity.
  - rewrite (body_frame l st).
    destruct (body l initial) as [e|s1]; cbn [bind]; [reflexivity|].
    rewrite (IH s1), (IH {| out := out st ++ out s1;
                            has_messages := has_messages st || has_messages s1 |}).
    destruct (loop f initial) as [e|s2]; [reflexivity|].
    cbn [out has_messages]. rewrite app_assoc, orb_assoc. reflexivity.
Qed.

Lemma body_raise_initial (line : str) (st : state) (e : exn) :
  body line st = inl e <-> body line initial = inl e.
Proof.
  rewrite (body_frame line st).
  destruct (body line initial) as [e0|s]; split; intros H;
    try discriminate H; exact H.
Qed.

Lemma check_single (line : str) (e : exn) :
  check [line] = inl e <-> body line initial = inl e.
Proof.
  unfold check. cbn [loop].
  destruct (body line initial) as [e0|s]; cbn [bind ret]; split; intros H;
    try discriminate H; injection H as ->; reflexivity.
Qed.

(** The first line on which the body raises. *)
Lemma loop_first_raise (f : list str) (st : state) (e : exn) :
  loop f st = inl e ->
  exists pre l post,
    f = pre ++ l :: post
    /\ (exists st', loop pre st = inr st')
    /\ body l initial = inl e.
Proof.
  revert st. induction f as [|l f IH]; intros st; cbn [loop]; [discriminate|].
  destruct (body l st) as [e0|st1] eqn:Hb; cbn [bind].
  - intros H. injection H as ->.
    exists [], l, f. split; [reflexivity|].
    split; [exists st; reflexivity|].
    apply (body_raise_initial l st e). exact Hb.
  - intros H. destruct (IH st1 H) as [pre [l' [post [-> [[st' Hpre] Hl]]]]].
    exists (l :: pre), l', post. split; [reflexivity|].
    split; [|exact Hl].
    exists st'. cbn [loop]. rewrite Hb. exact Hpre.
Qed.


(** ** Stripping *)

Lemma lstrip_spec (s : str) :
  exists ws,
    s = ws ++ lstrip s
    /\ forallb is_space ws = true
    /\ match lstrip s with
       | c :: _ => is_space c = false
       | [] => True
       end.
Proof.
  induction s as [|c s [ws [Hs [Hws Hhd]]]].
  - exists []. repeat split.
  - cbn [lstrip]. destruct (is_space c) eqn:Hc.
    + exists (c :: ws). cbn [app forallb]. rewrite Hc, Hws.
      split; [f_equal; exact Hs|]. split; [reflexivity | exact Hhd].
    + exists []. split; [reflexivity|]. split; [reflexivity | exact Hc].
Qed.

Lemma rstrip_spec (s : str) :
  exists ws,
    s = rstrip s ++ ws
    /\ forallb is_space ws = true
    /\ forall front c, rstrip s = front ++ [c] -> is_space c = false.
Proof.
  unfold rstrip. destruct (lstrip_spec (rev s)) as [ws [Hs [Hws Hhd]]].
  exists (rev ws). split; [|split].
  - rewrite <- rev_app_distr, <- Hs, rev_involutive. reflexivity.
  - apply forallb_forall. intros x Hx. apply in_rev in Hx.
    exact (proj1 (forallb_forall is_space ws) Hws x Hx).
  - intros front c H. apply (f_equal (@rev N)) in H.
    rewrite rev_involutive, rev_app_distr in H. cbn [rev app] in H.
    rewrite H in Hhd. exact Hhd.
Qed.

Lemma join_first (sep t : str) (c : N) (xs : list str) :
  exists rest, join sep ((c :: t) :: xs) = c :: rest.
Proof.
  destruct xs as [|x xs]; cbn [join app]; eexists; reflexivity.
Qed.

Lemma join_app (sep : str) (xs ys : list str) :
  xs <> [] -> ys <> [] ->
  join sep (xs ++ ys) = join sep xs ++ sep ++ join sep ys.
Proof.
  intros Hxs Hys. induction xs as [|x xs IH]; [congruence|].
  destruct xs as [|x' xs].
  - cbn [app]. rewrite join_cons by exact Hys. reflexivity.
  - change ((x :: x' :: xs) ++ ys) with (x :: ((x' :: xs) ++ ys)).
    rewrite (join_cons sep x ((x' :: xs) ++ ys)) by discriminate.
    rewrite (join_cons sep x (x' :: xs)) by discriminate.
    rewrite IH by discriminate. rewrite <- !app_assoc. reflexivity.
Qed.

(** ** The blocks of the diagnostics *)

Lemma blocks_length (qs : list str) :
  Forall (fun l => exists lv m sp r, diagnostic l lv m sp r) qs ->
  List.length (flat_map block_of qs) = (5 * List.length qs)%nat.
Proof.
  induction 1 as [|l qs [lv [m [sp [r Hd]]]] _ IH]; [reflexivity|].
  cbn [flat_map]. rewrite length_app, IH.
  unfold block_of. rewrite (proj2 (parts_diagnostic _ _ _ _ _) Hd).
  cbn [block List.length]. lia.
Qed.

Lemma blocks_end (qs : list str) :
  Forall (fun l => exists lv m sp r, diagnostic l lv m sp r) qs ->
  qs <> [] ->
  exists pre, flat_map block_of qs = pre ++ [lit "```" ++ nl].
Proof.
  intros Hall Hne. destruct (exists_last Hne) as [qs' [l ->]].
  apply Forall_app in Hall as [_ Hall]. apply Forall_inv in Hall.
  destruct Hall as [lv [m [sp [r Hd]]]].
  rewrite flat_map_app. cbn [flat_map]. rewrite app_nil_r.
  unfold block_of at 2. rewrite (proj2 (parts_diagnostic _ _ _ _ _) Hd).
  unfold block.
  match goal with
  | |- exists pre, _ ++ [?h; ?loc; ?fence; ?text; ?close] = _ =>
      exists (flat_map block_of qs' ++ [h; loc; fence; text])
  end.
  rewrite <- app_assoc. reflexivity.
Qed.

(** The state in which the loop ends: the flag tells whether a line
    qualifies, and then the buffer is not empty. *)
Lemma loop_flag (f : list str) (st : state) :
  loop f initial = inr st ->
  has_messages st = existsb qualifies f
  /\ (existsb qualifies f = true -> out st <> []).
Proof.
  intros Hl.
  assert (Hc : check f = inr (document st)) by (unfold check; rewrite Hl; reflexivity).
  pose proof (blocks_length _ (check_diagnostics f _ Hc)) as Hlen.
  apply loop_state in Hl. subst st. cbn [out has_messages initial app orb].
  split; [reflexivity|].
  intros Hq. apply filter_nonempty in Hq. rewrite <- block_of_filter.
  intros H. rewrite H in Hlen.
  destruct (filter qualifies f); [apply Hq; reflexivity|].
  cbn [List.length] in Hlen. lia.
Qed.

End Lemmas.


(** ** Runs of the script in the reference runtime *)

Example title_error : title (lit "error") = lit "Error".
Proof. reflexivity. Qed.

Example title_words : title (lit "mismatched tYPES") = lit "Mismatched Types".
Proof. reflexivity. Qed.

Example rstrip_blank_lines :
  rstrip (lit "warning: unused" ++ nl ++ lit "  " ++ nl ++ nl) = lit "warning: unused".
Proof. reflexivity. Qed.

Example format_values :
  map format [VNone; VBool true; VInt (-12); VStr (lit "src/main.rs");
              VList [VInt 1; VStr (lit "a")]]
  = [lit "None"; lit "True"; lit "-12"; lit "src/main.rs"; lit "[1, 'a']"].
Proof. reflexivity. Qed.

Example run_empty_input : check [] = inr success_document.
Proof. reflexivity. Qed.

Example run_missing_fields :
  check [json_text "{'reason':'compiler-message','message':{'level':'warning','spans':[{}]}}"]
  = inr (heading ++ lit "### Warning: " ++ nl
         ++ lit "File: None:None" ++ nl
         ++ lit "```rust" ++ nl
         ++ nl
         ++ lit "```" ++ nl).
Proof. vm_compute. reflexivity. Qed.

Example run_number_for_spans :
  check [json_text "{'reason':'compiler-message','message':{'level':'error','spans':5}}"]
  = inl TypeError.
Proof. vm_compute. reflexivity. Qed.

Example run_object_for_spans :
  check [json_text "{'reason':'compiler-message','message':{'level':'error','spans':{'a':1}}}"]
  = inl KeyError.
Proof. vm_compute. reflexivity. Qed.

Example run_text_for_spans :
  check [json_text "{'reason':'compiler-message','message':{'level':'error','spans':'src'}}"]
  = inl AttributeError.
Proof. vm_compute. reflexivity. Qed.

Example run_null_rendered :
  check [json_text "{'reason':'compiler-message','message':{'level':'error','spans':[{}],'rendered':null}}"]
  = inl AttributeError.
Proof. vm_compute. reflexivity. Qed.

Example run_upper_case_level :
  check [json_text "{'reason':'compiler-message','message':{'level':'Error','spans':[{}]}}"]
  = inr success_document.
Proof. vm_compute. reflexivity. Qed.

(** ** The properties of the report *)

Section Report.

Context {R : Runtime}.

(** C1, as amended: a line contributes a block to the report if and only if
    it decodes to a record that passes the filter (reason
    "compiler-message", level "error" or "warning", spans not empty) and
    that, in addition, has an object as the first element of its spans
    and a rendered text that is absent or a str. *)
Theorem contributes_iff (line : str) :
  contributes line <-> qualifies line = true /\ renderable line = true.
Proof.
  split.
  - intros [blk [Hblk Hb]]. specialize (Hb initial).
    destruct (body_cases line) as [[_ H] | [[_ [lv [m [sp [r Hd]]]]] | [e H]]].
    + rewrite H in Hb. injection Hb as Hb. simpl in Hb. congruence.
    + exact (diagnostic_qualifies _ _ _ _ _ Hd).
    + rewrite H in Hb. discriminate Hb.
  - intros [Hq Hr].
    destruct (qualifies_renderable line Hq Hr) as [lv [m [sp [r Hd]]]].
    exists (block lv m sp r). split; [discriminate|].
    intros st. apply body_diagnostic. exact Hd.
Qed.

(** C2, as amended: a line that decodes to a value that is no JSON object
    is not skipped.  The loop body raises AttributeError on it, so that a
    run whose earlier lines went through ends with that exception, and no
    run over an input that holds such a line writes a document. *)
Theorem non_object_line_raises (line : str) (v : value) :
  json_loads line = Some v ->
  is_object v = false ->
  (forall st, body line st = inl AttributeError)
  /\ (forall pre post st, loop pre initial = inr st ->
        check (pre ++ line :: post) = inl AttributeError)
  /\ (forall pre post, exists e, check (pre ++ line :: post) = inl e).
Proof.
  intros Hv Ho.
  assert (Hb : forall st, body line st = inl AttributeError)
    by (intros st; exact (body_not_object line v st Hv Ho)).
  split; [exact Hb|]. split.
  - intros pre post st Hpre. unfold check. rewrite loop_app, Hpre.
    simpl. rewrite Hb. reflexivity.
  - intros pre post. unfold check.
    destruct (loop_raises pre post line initial) as [e He];
      [exists AttributeError; exact Hb|].
    exists e. rewrite He. reflexivity.
Qed.

(** C3, as amended: for an input with zero lines, or in which every line
    fails to decode, or in which no line qualifies and every line that
    decodes yields an object whose message, when the reason is
    "compiler-message", is absent or an object, the text written is the
    fixed success document. *)
Theorem success_document_written (f : list str) :
  f = []
  \/ Forall (fun l => json_loads l = None) f
  \/ Forall (fun l => qualifies l = false /\ sound l = true) f ->
  check f = inr (lit "# Cargo Check Report" ++ nl ++ nl
                   ++ lit "No warnings or errors. Build success." ++ nl).
Proof.
  intros H.
  assert (Hall : Forall (fun l => qualifies l = false /\ sound l = true) f).
  { destruct H as [-> | [H | H]]; [constructor | | exact H].
    eapply Forall_impl; [|exact H]. intros l Hl.
    unfold qualifies, sound. rewrite Hl. split; reflexivity. }
  clear H.
  assert (Hl : loop f initial = inr initial).
  { generalize initial. induction Hall as [|l f [Hq Hs] _ IH]; intros st; simpl.
    - reflexivity.
    - rewrite (body_rejected l st Hq Hs). simpl. apply IH. }
  unfold check. rewrite Hl. reflexivity.
Qed.

(** C4: the input of one record with reason "compiler-message", level
    "error", message "mismatched types", the one span of file src/main.rs
    and line 10, and the rendered text of two lines gives the heading, the
    block heading, the file line and the fenced rust block that holds the
    rendered text, the closing fence right after its last line. *)
Theorem mismatched_types_report (line : str) (d m : list (str * value)) :
  json_loads line = Some (VDict d) ->
  dict_get (lit "reason") d = Some (VStr (lit "compiler-message")) ->
  dict_get (lit "message") d = Some (VDict m) ->
  dict_get (lit "level") m = Some (VStr (lit "error")) ->
  dict_get (lit "message") m = Some (VStr (lit "mismatched types")) ->
  dict_get (lit "spans") m
    = Some (VList [VDict [(lit "file_name", VStr (lit "src/main.rs"));
                          (lit "line_start", VInt 10)]]) ->
  dict_get (lit "rendered") m
    = Some (VStr (lit "error: mismatched types" ++ nl ++ lit " --> src/main.rs:10")) ->
  check [line]
  = inr (lit "# Cargo Check Report" ++ nl
         ++ nl
         ++ lit "### Error: mismatched types" ++ nl
         ++ lit "File: src/main.rs:10" ++ nl
         ++ lit "```rust" ++ nl
         ++ lit "error: mismatched types" ++ nl
         ++ lit " --> src/main.rs:10" ++ nl
         ++ lit "```" ++ nl).
Proof.
  intros Hd Hreason Hmsg Hlevel Htext Hspans Hrendered.
  assert (Hdiag : diagnostic line (lit "error") m
                    [(lit "file_name", VStr (lit "src/main.rs")); (lit "line_start", VInt 10)]
                    (lit "error: mismatched types" ++ nl ++ lit " --> src/main.rs:10")).
  { unfold diagnostic. split; [exists d; auto|].
    split; [assumption|]. split; [left; reflexivity|].
    split; [exists []; assumption|]. rewrite Hrendered. reflexivity. }
  unfold check. cbn [loop]. rewrite (body_diagnostic _ _ _ _ _ initial Hdiag).
  cbn [bind ret]. unfold document, block. cbn [has_messages negb out app].
  rewrite Htext. vm_compute. reflexivity.
Qed.

(** C5: in a run that writes a document, the qualifying lines are
    diagnostics, and the buffer written after the heading is made of their
    blocks, one for each of them, in the order of the lines in the input,
    whatever their levels; nothing is sorted and nothing is merged. *)
Theorem blocks_in_input_order (f : list str) (doc : str) :
  check f = inr doc ->
  Forall (fun l => exists lv m sp r,
            diagnostic l lv m sp r /\ block_of l = block lv m sp r)
         (filter qualifies f)
  /\ (filter qualifies f <> [] ->
      doc = heading ++ join nl (flat_map block_of (filter qualifies f))).
Proof.
  intros Hc. split.
  - eapply Forall_impl; [|exact (check_diagnostics f doc Hc)].
    intros l [lv [m [sp [r Hd]]]]. exists lv, m, sp, r. split; [exact Hd|].
    unfold block_of. rewrite (proj2 (parts_diagnostic _ _ _ _ _) Hd). reflexivity.
  - intros Hne. rewrite (check_document f doc Hc).
    rewrite (proj2 (filter_nonempty f) Hne). reflexivity.
Qed.

(** C6: the document of the report shape is the heading line, an empty
    line and the lines of the blocks of the qualifying lines in order,
    joined by newlines; every block, the last one too, ends in its closing
    fence and an empty line after it, so that the document ends in the
    closing fence and a newline. *)
Theorem report_shape (f : list str) (doc : str) :
  check f = inr doc ->
  existsb qualifies f = true ->
  doc = join nl (lit "# Cargo Check Report" :: [] :: flat_map lines_of (filter qualifies f))
  /\ Forall (fun l => exists h loc r,
               block_of l = [h; loc; lit "```rust"; r; lit "```" ++ nl]
               /\ lines_of l = [h; loc; lit "```rust"; r; lit "```"; []])
            (filter qualifies f)
  /\ doc = heading ++ join nl (flat_map block_of (filter qualifies f))
  /\ exists front, doc = front ++ lit "```" ++ nl.
Proof.
  intros Hc Hq.
  assert (Hdoc : doc = heading ++ join nl (flat_map block_of (filter qualifies f)))
    by (rewrite (check_document f doc Hc), Hq; reflexivity).
  assert (Hall : Forall (fun l => exists h loc r,
                           block_of l = [h; loc; lit "```rust"; r; lit "```" ++ nl]
                           /\ lines_of l = [h; loc; lit "```rust"; r; lit "```"; []])
                        (filter qualifies f)).
  { eapply Forall_impl; [|exact (check_diagnostics f doc Hc)].
    intros l [lv [m [sp [r Hd]]]].
    unfold block_of, lines_of. rewrite (proj2 (parts_diagnostic _ _ _ _ _) Hd).
    unfold block, block_lines. eexists _, _, _. split; reflexivity. }
  apply filter_nonempty in Hq.
  destruct (exists_last Hq) as [qs [l Hqs]].
  assert (Hl : exists h loc r, block_of l = [h; loc; lit "```rust"; r; lit "```" ++ nl]).
  { rewrite Hqs in Hall. apply Forall_app in Hall as [_ Hall].
    inversion Hall as [|? ? [h [loc [r [Hb _]]]] _]; subst. exists h, loc, r. exact Hb. }
  destruct Hl as [h [loc [r Hl]]].
  split; [|split; [exact Hall | split; [exact Hdoc|]]].
  - rewrite Hdoc.
    change (lit "# Cargo Check Report" :: [] :: flat_map lines_of (filter qualifies f))
      with ([lit "# Cargo Check Report"; []] ++ flat_map lines_of (filter qualifies f)).
    rewrite <- join_blocks_lines. apply heading_join.
    rewrite Hqs, flat_map_app. cbn [flat_map]. rewrite Hl.
    destruct (flat_map block_of qs); discriminate.
  - rewrite Hdoc, Hqs, flat_map_app. cbn [flat_map]. rewrite Hl, app_nil_r.
    change [h; loc; lit "```rust"; r; lit "```" ++ nl]
      with ([h; loc; lit "```rust"; r] ++ [lit "```" ++ nl]).
    rewrite app_assoc.
    destruct (join_last nl (flat_map block_of qs ++ [h; loc; lit "```rust"; r])
                (lit "```" ++ nl)) as [front Hf].
    exists (heading ++ front). rewrite <- (app_assoc heading front).
    apply (f_equal (fun x => heading ++ x)). exact Hf.
Qed.

(** C7, as amended: lines that [json.loads] fails to decode, put into an
    input at any positions, change nothing: the run ends as it does
    without them, with the same document or with the same exception. *)
Theorem undecodable_lines_ignored (f g : list str) :
  inserts f g -> check g = check f.
Proof.
  intros H. unfold check. rewrite (loop_inserts f g H). reflexivity.
Qed.

(** C9, as amended: for every qualifying record that the script renders
    (the first element of its spans is an object, its rendered text is
    absent or a str) the level is "error" or "warning", and the first
    string the loop body appends is the three hashes, a space, the level
    with its first letter in upper case and the rest in lower case
    ("Error", "Warning"), a colon, a space and the message text;
    [level.title()] is that capitalized form. *)
Theorem level_capitalized (line : str) :
  qualifies line = true ->
  renderable line = true ->
  exists d m lv,
    json_loads line = Some (VDict d)
    /\ dict_get (lit "message") d = Some (VDict m)
    /\ dict_get (lit "level") m = Some (VStr lv)
    /\ ((lv = lit "error" /\ capitalize lv = lit "Error")
        \/ (lv = lit "warning" /\ capitalize lv = lit "Warning"))
    /\ title lv = capitalize lv
    /\ forall st, exists text rest,
         body line st
         = inr {| out := out st ++ (lit "### " ++ capitalize lv ++ lit ": " ++ text) :: rest;
                  has_messages := true |}.
Proof.
  intros Hq Hr.
  destruct (qualifies_renderable line Hq Hr) as [lv [m [sp [r Hd]]]].
  pose proof Hd as [[d [Hline [_ Hmsg]]] [Hlevel [Hlv _]]].
  exists d, m, lv.
  split; [exact Hline|]. split; [exact Hmsg|]. split; [exact Hlevel|].
  assert (Ht : title lv = capitalize lv) by (destruct Hlv as [-> | ->]; reflexivity).
  split; [destruct Hlv as [-> | ->]; [left | right]; split; reflexivity|].
  split; [exact Ht|].
  intros st. rewrite (body_diagnostic _ _ _ _ _ st Hd).
  unfold block. rewrite Ht. eexists _, _. reflexivity.
Qed.

(** C10: a line that decodes to an object of reason "compiler-message"
    whose message is present and is no object makes the loop body raise
    AttributeError; the line is not skipped, and a run over an input that
    holds it writes no document. *)
Theorem message_not_object_raises (line : str) (d : list (str * value)) (m : value) :
  json_loads line = Some (VDict d) ->
  dict_get (lit "reason") d = Some (VStr (lit "compiler-message")) ->
  dict_get (lit "message") d = Some m ->
  is_object m = false ->
  (forall st, body line st = inl AttributeError)
  /\ check [line] = inl AttributeError
  /\ (forall pre post, exists e, check (pre ++ line :: post) = inl e).
Proof.
  intros Hd Hreason Hmsg Hm.
  assert (Hb : forall st, body line st = inl AttributeError)
    by (intros st; exact (body_message_not_object line d m st Hd Hreason Hmsg Hm)).
  split; [exact Hb|]. split.
  - unfold check. cbn [loop]. rewrite Hb. reflexivity.
  - intros pre post. unfold check.
    destruct (loop_raises pre post line initial) as [e He];
      [exists AttributeError; exact Hb|].
    exists e. rewrite He. reflexivity.
Qed.

End Report.

(** C1 fails as the specification words it: the record of this line passes
    the filter, its spans hold the number 5, and the script raises instead
    of adding a block. *)
Lemma number_span_counterexample :
  ~ (contributes Lines.number_span <-> qualifies Lines.number_span = true).
Proof.
  intros [_ H].
  destruct H as [blk [_ Hb]]; [vm_compute; reflexivity|].
  specialize (Hb initial). vm_compute in Hb. discriminate Hb.
Qed.

(** C2 fails as the specification words it: the line [[1]] decodes to a
    list, and the run over it ends with AttributeError, where the run over
    the input without the line writes the success document. *)
Lemma array_line_counterexample :
  json_loads Lines.array = Some (VList [VInt 1])
  /\ check [Lines.array] = inl AttributeError
  /\ check [] = inr success_document.
Proof. vm_compute. repeat split. Qed.

Lemma non_object_line_raises_witness :
  (forall st, body Lines.array st = inl AttributeError)
  /\ (forall pre post st, loop pre initial = inr st ->
        check (pre ++ Lines.array :: post) = inl AttributeError)
  /\ (forall pre post, exists e, check (pre ++ Lines.array :: post) = inl e).
Proof.
  apply (non_object_line_raises Lines.array (VList [VInt 1])).
  - vm_compute. reflexivity.
  - reflexivity.
Defined.

(** C3 fails as the specification words it: no record of this input passes
    the filter, and the run ends with AttributeError on the message that is
    null, so that nothing is written. *)
Lemma null_message_counterexample :
  Forall (fun l => qualifies l = false) [Lines.compiling; Lines.null_message]
  /\ check [Lines.compiling; Lines.null_message] = inl AttributeError.
Proof.
  split.
  - repeat constructor.
  - vm_compute. reflexivity.
Qed.

Lemma success_document_written_witness :
  check [Lines.compiling; Lines.artifact; Lines.note; Lines.no_spans]
  = inr (lit "# Cargo Check Report" ++ nl ++ nl
           ++ lit "No warnings or errors. Build success." ++ nl).
Proof.
  apply success_document_written. right; right.
  repeat constructor.
Defined.

Lemma mismatched_types_report_witness :
  check [Lines.mismatched_types]
  = inr (lit "# Cargo Check Report" ++ nl
         ++ nl
         ++ lit "### Error: mismatched types" ++ nl
         ++ lit "File: src/main.rs:10" ++ nl
         ++ lit "```rust" ++ nl
         ++ lit "error: mismatched types" ++ nl
         ++ lit " --> src/main.rs:10" ++ nl
         ++ lit "```" ++ nl).
Proof.
  eapply mismatched_types_report; vm_compute; reflexivity.
Defined.

Lemma blocks_in_input_order_witness :
  Forall (fun l => exists lv m sp r,
            diagnostic l lv m sp r /\ block_of l = block lv m sp r)
         (filter qualifies Lines.mixed)
  /\ (filter qualifies Lines.mixed <> [] ->
      Lines.mixed_report
      = heading ++ join nl (flat_map block_of (filter qualifies Lines.mixed))).
Proof.
  apply (blocks_in_input_order Lines.mixed Lines.mixed_report).
  vm_compute. reflexivity.
Defined.

Lemma report_shape_witness :
  Lines.mixed_report
  = join nl (lit "# Cargo Check Report" :: []
               :: flat_map lines_of (filter qualifies Lines.mixed))
  /\ Forall (fun l => exists h loc r,
               block_of l = [h; loc; lit "```rust"; r; lit "```" ++ nl]
               /\ lines_of l = [h; loc; lit "```rust"; r; lit "```"; []])
            (filter qualifies Lines.mixed)
  /\ Lines.mixed_report
     = heading ++ join nl (flat_map block_of (filter qualifies Lines.mixed))
  /\ exists front, Lines.mixed_report = front ++ lit "```" ++ nl.
Proof.
  apply (report_shape Lines.mixed Lines.mixed_report).
  - vm_compute. reflexivity.
  - vm_compute. reflexivity.
Defined.

(** C7 fails as the specification words it: the line [NaN] is no JSON
    text, [json.loads] decodes it to a float all the same, and the run over
    it ends with AttributeError, where the run over the input without it
    writes the success document. *)
Lemma nan_line_counterexample :
  may_begin_json Cases.nan = false
  /\ @json_loads NonFinite.runtime Cases.nan = Some (VFloat NonFinite.NaN)
  /\ @check NonFinite.runtime [Cases.nan] = inl AttributeError
  /\ @check NonFinite.runtime [] = inr success_document.
Proof. vm_compute. repeat split. Qed.

Lemma undecodable_lines_ignored_witness :
  check [Lines.compiling; Lines.unused_variable; lit "{"; Lines.array; lit ""]
  = check [Lines.unused_variable; Lines.array].
Proof.
  apply undecodable_lines_ignored.
  apply inserts_junk; [vm_compute; reflexivity|].
  apply inserts_keep.
  apply inserts_junk; [vm_compute; reflexivity|].
  apply inserts_keep.
  apply inserts_junk; [vm_compute; reflexivity|].
  apply inserts_nil.
Defined.

(** C9 fails as the specification words it: the record of this line
    passes the filter, its spans are [true], and the subscript raises
    before any heading is built, so that no heading shows its level. *)
Lemma true_for_spans_counterexample :
  qualifies Cases.true_for_spans = true
  /\ (forall st, body Cases.true_for_spans st = inl TypeError)
  /\ check [Cases.true_for_spans] = inl TypeError.
Proof.
  split; [vm_compute; reflexivity|]. split.
  - intros st. apply body_raise_initial. vm_compute. reflexivity.
  - vm_compute. reflexivity.
Qed.

Lemma level_capitalized_witness :
  exists d m lv,
    json_loads Lines.unused_variable = Some (VDict d)
    /\ dict_get (lit "message") d = Some (VDict m)
    /\ dict_get (lit "level") m = Some (VStr lv)
    /\ ((lv = lit "error" /\ capitalize lv = lit "Error")
        \/ (lv = lit "warning" /\ capitalize lv = lit "Warning"))
    /\ title lv = capitalize lv
    /\ forall st, exists text rest,
         body Lines.unused_variable st
         = inr {| out := out st ++ (lit "### " ++ capitalize lv ++ lit ": " ++ text) :: rest;
                  has_messages := true |}.
Proof.
  apply level_capitalized.
  - vm_compute. reflexivity.
  - vm_compute. reflexivity.
Defined.

Lemma message_not_object_raises_witness :
  (forall st, body Lines.text_message st = inl AttributeError)
  /\ check [Lines.text_message] = inl AttributeError
  /\ (forall pre post, exists e, check (pre ++ Lines.text_message :: post) = inl e).
Proof.
  apply (message_not_object_raises Lines.text_message
           [(lit "reason", VStr (lit "compiler-message"));
            (lit "message", VStr (lit "mismatched types"))]
           (VStr (lit "mismatched types"))).
  - vm_compute. reflexivity.
  - vm_compute. reflexivity.
  - vm_compute. reflexivity.
  - reflexivity.
Defined.

(** ** Further properties of the script *)

Section Script.

Context {R : Runtime}.


(** X2: when the loop ends, the buffer holds five strings for each
    qualifying line and nothing else, and the flag is set exactly when the
    buffer is not empty. *)
Theorem buffer_invariant (f : list str) (st : state) :
  loop f initial = inr st ->
  List.length (out st) = (5 * List.length (filter qualifies f))%nat
  /\ (has_messages st = true <-> out st <> []).
Proof.
  intros Hl.
  assert (Hc : check f = inr (document st)) by (unfold check; rewrite Hl; reflexivity).
  pose proof (check_diagnostics f _ Hc) as Hall.
  apply loop_state in Hl. subst st. cbn [out has_messages initial app orb].
  rewrite <- block_of_filter.
  pose proof (blocks_length _ Hall) as Hlen.
  split; [exact Hlen|].
  rewrite filter_nonempty.
  destruct (filter qualifies f) as [|q qs].
  - split; intros H; exfalso; apply H; reflexivity.
  - split; intros _; [|discriminate].
    intros H. rewrite H in Hlen. cbn [List.length] in Hlen. lia.
Qed.

(** X3: the body of the fenced block is the rendered text without its
    trailing white space: the rendered text is that body followed by white
    space only, and the body does not end in a white space character. *)
Theorem fence_body_stripped (line lv : str) (m sp : list (str * value)) (r : str) :
  diagnostic line lv m sp r ->
  forall st, exists h loc text ws,
    body line st
    = inr {| out := out st ++ [h; loc; lit "```rust"; text; lit "```" ++ nl];
             has_messages := true |}
    /\ r = text ++ ws
    /\ forallb is_space ws = true
    /\ forall front c, text = front ++ [c] -> is_space c = false.
Proof.
  intros Hd st. destruct (rstrip_spec r) as [ws [Hr [Hws Hlast]]].
  eexists _, _, (rstrip r), ws.
  split; [exact (body_diagnostic _ _ _ _ _ st Hd)|].
  split; [exact Hr|]. split; [exact Hws | exact Hlast].
Qed.

(** X4: a run ends with an exception exactly when some line, run alone,
    ends with it and the lines before that line run through; the lines
    after it play no part. *)
Theorem first_raising_line (f : list str) (e : exn) :
  check f = inl e
  <-> exists pre l post,
        f = pre ++ l :: post
        /\ (exists doc, check pre = inr doc)
        /\ check [l] = inl e.
Proof.
  split.
  - unfold check at 1. destruct (loop f initial) as [e0|st] eqn:Hl; cbn [bind ret];
      [|discriminate].
    intros H. injection H as <-.
    destruct (loop_first_raise f initial e0 Hl) as [pre [l [post [Hf [[st' Hpre] Hb]]]]].
    exists pre, l, post. split; [exact Hf|]. split.
    + exists (document st'). unfold check. rewrite Hpre. reflexivity.
    + apply check_single. exact Hb.
  - intros [pre [l [post [-> [[doc Hpre] Hl]]]]].
    apply check_single in Hl. unfold check in *.
    destruct (loop pre initial) as [e0|st'] eqn:Hp; [discriminate Hpre|].
    rewrite loop_app, Hp. cbn [bind loop].
    rewrite (proj2 (body_raise_initial l st' e) Hl). reflexivity.
Qed.

(** X5: of the two texts the script can write, the success document is
    written exactly when no line qualifies; the report of a qualifying
    line never reads as the success document. *)
Theorem success_iff_nothing_qualifies (f : list str) (doc : str) :
  check f = inr doc ->
  (doc = success_document <-> existsb qualifies f = false).
Proof.
  intros Hc. pose proof (check_document f doc Hc) as Hdoc.
  pose proof (check_diagnostics f doc Hc) as Hall.
  destruct (existsb qualifies f) eqn:Hq.
  - split; [|discriminate]. intros Hs. exfalso.
    rewrite Hdoc in Hs. clear Hdoc.
    apply filter_nonempty in Hq.
    destruct (filter qualifies f) as [|l qs]; [apply Hq; reflexivity|].
    apply Forall_inv in Hall. destruct Hall as [lv [m [sp [r Hd]]]].
    unfold success_document in Hs. apply app_inv_head in Hs.
    cbn [flat_map] in Hs. unfold block_of at 1 in Hs.
    rewrite (proj2 (parts_diagnostic _ _ _ _ _) Hd) in Hs.
    unfold block in Hs. cbn [app] in Hs.
    change (lit "### ") with (35 :: lit "## ") in Hs. cbn [app] in Hs.
    match type of Hs with
    | join nl ((35 :: ?t) :: ?xs) = _ =>
        destruct (join_first nl t 35 xs) as [rest Hrest];
        pose proof (eq_trans (eq_sym Hrest) Hs) as Hhead
    end.
    discriminate Hhead.
  - split; [reflexivity | intros _; exact Hdoc].
Qed.

(** X6: the keys a diagnostic lacks are filled in: without [message] the
    heading ends after the colon and the space, without [file_name] and
    [line_start] the location reads None:None, and without [rendered] the
    fenced block holds one empty line. *)
Theorem missing_keys_defaults (line lv : str) (m sp : list (str * value)) (r : str) :
  diagnostic line lv m sp r ->
  forall st, exists h loc text,
    body line st
    = inr {| out := out st ++ [h; loc; lit "```rust"; text; lit "```" ++ nl];
             has_messages := true |}
    /\ (dict_get (lit "message") m = None -> h = lit "### " ++ title lv ++ lit ": ")
    /\ (dict_get (lit "file_name") sp = None ->
        dict_get (lit "line_start") sp = None -> loc = lit "File: None:None")
    /\ (dict_get (lit "rendered") m = None -> text = []).
Proof.
  intros Hd st. eexists _, _, _.
  split; [exact (body_diagnostic _ _ _ _ _ st Hd)|].
  split; [|split].
  - intros ->. cbn [or_default format]. rewrite app_nil_r. reflexivity.
  - intros -> ->. reflexivity.
  - intros Hr. destruct Hd as [_ [_ [_ [_ Hrendered]]]].
    rewrite Hr in Hrendered. injection Hrendered as <-. reflexivity.
Qed.

(** X7: an object whose reason is absent or is not "compiler-message" is
    dropped before anything else of it is read, so that no shape of its
    other fields can raise. *)
Theorem other_reason_dropped (line : str) (d : list (str * value)) :
  json_loads line = Some (VDict d) ->
  (forall reason, dict_get (lit "reason") d = Some reason ->
                  eq_str reason (lit "compiler-message") = false) ->
  forall st, body line st = inr st.
Proof.
  intros Hd Hreason st. unfold body. rewrite Hd. cbn [get bind ret raise].
  destruct (dict_get (lit "reason") d) as [reason|]; cbn [bind ret].
  - rewrite (Hreason reason eq_refl). reflexivity.
  - reflexivity.
Qed.

(** X8: a compiler message whose level is absent or is not exactly "error"
    or "warning" is dropped before its spans and its rendered text are
    read, whatever they are. *)
Theorem other_level_dropped (line : str) (d m : list (str * value)) :
  json_loads line = Some (VDict d) ->
  dict_get (lit "message") d = Some (VDict m) ->
  (forall level, dict_get (lit "level") m = Some level ->
                 in_strs level [lit "error"; lit "warning"] = false) ->
  forall st, body line st = inr st.
Proof.
  intros Hd Hmsg Hlevel st. unfold body. rewrite Hd. cbn [get bind ret raise].
  destruct (dict_get (lit "reason") d) as [reason|]; cbn [bind ret];
    [|reflexivity].
  destruct (eq_str reason (lit "compiler-message")); cbn [negb]; [|reflexivity].
  rewrite Hmsg. cbn [get bind ret].
  destruct (dict_get (lit "level") m) as [level|]; cbn [bind ret].
  - rewrite (Hlevel level eq_refl). reflexivity.
  - reflexivity.
Qed.

(** X9: an error or a warning whose spans are absent or falsy (the empty
    list, null, zero, false, the empty string, the empty object) is dropped
    without setting the flag, and its rendered text is never read. *)
Theorem falsy_spans_dropped (line : str) (d m : list (str * value)) :
  json_loads line = Some (VDict d) ->
  dict_get (lit "message") d = Some (VDict m) ->
  truthy (or_default (dict_get (lit "spans") m) (VList [])) = false ->
  forall st, body line st = inr st.
Proof.
  intros Hd Hmsg Hspans st. unfold body. rewrite Hd. cbn [get bind ret raise].
  destruct (dict_get (lit "reason") d) as [reason|]; cbn [bind ret];
    [|reflexivity].
  destruct (eq_str reason (lit "compiler-message")); cbn [negb]; [|reflexivity].
  rewrite Hmsg. cbn [get bind ret].
  destruct (dict_get (lit "level") m) as [level|]; cbn [bind ret];
    [|reflexivity].
  destruct (in_strs level [lit "error"; lit "warning"]); cbn [negb]; [|reflexivity].
  unfold or_default in Hspans.
  destruct (dict_get (lit "spans") m) as [spans|]; cbn [bind ret];
    rewrite Hspans; reflexivity.
Qed.

(** X10: the loop over two inputs, one after the other, runs through
    exactly when it runs through each of them, and then the buffer is the
    buffer of the first followed by the buffer of the second, the flag
    being set when it is set for one of them. *)
Theorem loop_concat (f g : list str) (st : state) :
  loop (f ++ g) initial = inr st
  <-> exists s1 s2,
        loop f initial = inr s1
        /\ loop g initial = inr s2
        /\ st = {| out := out s1 ++ out s2;
                   has_messages := has_messages s1 || has_messages s2 |}.
Proof.
  rewrite loop_app. split.
  - destruct (loop f initial) as [e|s1]; cbn [bind]; [discriminate|].
    rewrite (loop_frame g s1).
    destruct (loop g initial) as [e|s2]; [discriminate|].
    intros H. injection H as <-. exists s1, s2. repeat split.
  - intros [s1 [s2 [-> [Hg ->]]]]. cbn [bind].
    rewrite (loop_frame g s1), Hg. reflexivity.
Qed.

(** X11: only the qualifying lines matter: when every other line is one
    the script drops (it does not decode, or it is an object whose message
    is absent or an object when the reason is "compiler-message"), the
    run over the qualifying lines alone ends as the run over the input. *)
Theorem only_qualifying_lines_matter (f : list str) :
  Forall (fun l => qualifies l = true \/ sound l = true) f ->
  check (filter qualifies f) = check f.
Proof.
  intros Hall. unfold check.
  assert (Hl : forall st, loop (filter qualifies f) st = loop f st).
  { induction Hall as [|l f Hl _ IH]; intros st; cbn [filter loop]; [reflexivity|].
    destruct (qualifies l) eqn:Hq.
    - cbn [loop]. destruct (body l st); cbn [bind]; [reflexivity | apply IH].
    - destruct Hl as [Hl | Hl]; [discriminate Hl|].
      rewrite (body_rejected l st Hq Hl). cbn [bind]. apply IH. }
  rewrite Hl. reflexivity.
Qed.

(** X12: of a compiler message the script reads the level, the message,
    the rendered text and the first span only: two lines whose records
    agree on these end a turn of the loop in the same way, whatever their
    other fields and their further spans are. *)
Theorem unread_fields_ignored
    (l1 l2 : str) (d1 d2 m1 m2 : list (str * value)) (span : value)
    (rest1 rest2 : list value) :
  json_loads l1 = Some (VDict d1) ->
  json_loads l2 = Some (VDict d2) ->
  dict_get (lit "reason") d1 = dict_get (lit "reason") d2 ->
  dict_get (lit "message") d1 = Some (VDict m1) ->
  dict_get (lit "message") d2 = Some (VDict m2) ->
  dict_get (lit "level") m1 = dict_get (lit "level") m2 ->
  dict_get (lit "message") m1 = dict_get (lit "message") m2 ->
  dict_get (lit "rendered") m1 = dict_get (lit "rendered") m2 ->
  dict_get (lit "spans") m1 = Some (VList (span :: rest1)) ->
  dict_get (lit "spans") m2 = Some (VList (span :: rest2)) ->
  forall st, body l1 st = body l2 st.
Proof.
  intros H1 H2 Hreason Hm1 Hm2 Hlevel Htext Hrendered Hs1 Hs2 st.
  unfold body. rewrite H1, H2. cbn [get bind ret raise].
  rewrite Hreason, Hm1, Hm2. cbn [get bind ret raise].
  rewrite Hlevel, Htext, Hrendered, Hs1, Hs2.
  cbn [bind ret truthy negb getitem0]. reflexivity.
Qed.

(** X13: whatever the input, the text written begins with the heading
    line and an empty line, and it ends with a newline. *)
Theorem document_frame (f : list str) (doc : str) :
  check f = inr doc ->
  (exists rest, doc = lit "# Cargo Check Report" ++ nl ++ nl ++ rest)
  /\ (exists front, doc = front ++ nl).
Proof.
  intros Hc. rewrite (check_document f doc Hc).
  destruct (existsb qualifies f) eqn:Hq.
  - split.
    + eexists. unfold heading. rewrite <- !app_assoc. reflexivity.
    + apply filter_nonempty in Hq.
      destruct (blocks_end _ (check_diagnostics f doc Hc) Hq) as [pre Hpre].
      destruct (join_last nl pre (lit "```" ++ nl)) as [front Hfront].
      exists (heading ++ front ++ lit "```").
      rewrite Hpre. rewrite <- !app_assoc.
      apply (f_equal (fun x => heading ++ x)).
      exact Hfront.
  - split.
    + eexists. unfold success_document, heading. rewrite <- !app_assoc. reflexivity.
    + exists (heading ++ lit "No warnings or errors. Build success.").
      unfold success_document. rewrite <- app_assoc. reflexivity.
Qed.

(** X14: a log put after another appends to the report: when both logs
    hold a qualifying line and both runs write their documents, the
    document of the two logs in a row is the document of the first, a
    newline, and the document of the second without its heading. *)
Theorem report_appends (f g : list str) (d1 d2 : str) :
  check f = inr d1 ->
  check g = inr d2 ->
  existsb qualifies f = true ->
  existsb qualifies g = true ->
  exists blocks,
    d2 = heading ++ blocks
    /\ check (f ++ g) = inr (d1 ++ nl ++ blocks).
Proof.
  unfold check. intros Hf Hg Hqf Hqg.
  destruct (loop f initial) as [e|s1] eqn:Hl1; [discriminate Hf|].
  destruct (loop g initial) as [e|s2] eqn:Hl2; [discriminate Hg|].
  cbn [bind ret] in Hf, Hg. injection Hf as <-. injection Hg as <-.
  destruct (loop_flag f s1 Hl1) as [Hf1 Ho1].
  destruct (loop_flag g s2 Hl2) as [Hf2 Ho2].
  rewrite Hqf in Hf1. rewrite Hqg in Hf2.
  exists (join nl (out s2)). unfold document. rewrite Hf1, Hf2. cbn [negb].
  split; [reflexivity|].
  rewrite loop_app, Hl1. cbn [bind]. rewrite (loop_frame g s1), Hl2.
  cbn [bind ret has_messages out]. rewrite Hf1. cbn [orb negb].
  rewrite (join_app nl (out s1) (out s2) (Ho1 Hqf) (Ho2 Hqg)).
  rewrite <- !app_assoc. reflexivity.
Qed.

End Script.


Lemma buffer_invariant_witness :
  exists st,
    loop Lines.mixed initial = inr st
    /\ List.length (out st) = (5 * List.length (filter qualifies Lines.mixed))%nat
    /\ (has_messages st = true <-> out st <> []).
Proof.
  eexists.
  refine ((fun H => conj H (buffer_invariant Lines.mixed _ H)) _).
  vm_compute. reflexivity.
Defined.

Lemma fence_body_stripped_witness :
  exists h loc text ws,
    body Lines.unused_variable initial
    = inr {| out := out initial ++ [h; loc; lit "```rust"; text; lit "```" ++ nl];
             has_messages := true |}
    /\ lit "warning: unused variable" ++ nl ++ lit " --> src/lib.rs:3" ++ nl ++ nl
       = text ++ ws
    /\ forallb is_space ws = true
    /\ forall front c, text = front ++ [c] -> is_space c = false.
Proof.
  eapply fence_body_stripped. apply parts_diagnostic.
  vm_compute. reflexivity.
Defined.

Lemma success_iff_nothing_qualifies_witness :
  Lines.mixed_report = success_document <-> existsb qualifies Lines.mixed = false.
Proof.
  apply (success_iff_nothing_qualifies Lines.mixed Lines.mixed_report).
  vm_compute. reflexivity.
Defined.

Lemma missing_keys_defaults_witness :
  exists h loc text,
    body Cases.bare_warning initial
    = inr {| out := out initial ++ [h; loc; lit "```rust"; text; lit "```" ++ nl];
             has_messages := true |}
    /\ (dict_get (lit "message")
          [(lit "level", VStr (lit "warning")); (lit "spans", VList [VDict []])] = None ->
        h = lit "### " ++ title (lit "warning") ++ lit ": ")
    /\ (dict_get (lit "file_name") [] = None ->
        dict_get (lit "line_start") [] = None -> loc = lit "File: None:None")
    /\ (dict_get (lit "rendered")
          [(lit "level", VStr (lit "warning")); (lit "spans", VList [VDict []])] = None ->
        text = []).
Proof.
  apply (missing_keys_defaults Cases.bare_warning (lit "warning")
           [(lit "level", VStr (lit "warning")); (lit "spans", VList [VDict []])]
           [] []).
  apply parts_diagnostic. vm_compute. reflexivity.
Defined.

Lemma other_reason_dropped_witness :
  body Cases.build_script initial = inr initial.
Proof.
  apply (other_reason_dropped Cases.build_script
           [(lit "reason", VStr (lit "build-script-executed")); (lit "message", VInt 5)]).
  - vm_compute. reflexivity.
  - intros reason H. vm_compute in H. injection H as <-. reflexivity.
Defined.

Lemma other_level_dropped_witness :
  body Cases.ill_typed_note initial = inr initial.
Proof.
  apply (other_level_dropped Cases.ill_typed_note
           [(lit "reason", VStr (lit "compiler-message"));
            (lit "message",
             VDict [(lit "level", VStr (lit "note")); (lit "spans", VInt 5);
                    (lit "rendered", VNone)])]
           [(lit "level", VStr (lit "note")); (lit "spans", VInt 5);
            (lit "rendered", VNone)]).
  - vm_compute. reflexivity.
  - vm_compute. reflexivity.
  - intros level H. vm_compute in H. injection H as <-. reflexivity.
Defined.

Lemma falsy_spans_dropped_witness :
  body Cases.null_spans initial = inr initial.
Proof.
  apply (falsy_spans_dropped Cases.null_spans
           [(lit "reason", VStr (lit "compiler-message"));
            (lit "message",
             VDict [(lit "level", VStr (lit "error")); (lit "spans", VNone);
                    (lit "rendered", VInt 7)])]
           [(lit "level", VStr (lit "error")); (lit "spans", VNone);
            (lit "rendered", VInt 7)]).
  - vm_compute. reflexivity.
  - vm_compute. reflexivity.
  - vm_compute. reflexivity.
Defined.

Lemma only_qualifying_lines_matter_witness :
  check (filter qualifies Lines.mixed) = check Lines.mixed.
Proof.
  apply only_qualifying_lines_matter.
  repeat (apply Forall_cons;
          [first [left; vm_compute; reflexivity | right; vm_compute; reflexivity]|]).
  apply Forall_nil.
Defined.

Lemma unread_fields_ignored_witness :
  body Lines.unused_variable initial = body Cases.unused_variable_verbose initial.
Proof.
  eapply unread_fields_ignored; vm_compute; reflexivity.
Defined.

Lemma document_frame_witness :
  (exists rest, Lines.mixed_report = lit "# Cargo Check Report" ++ nl ++ nl ++ rest)
  /\ (exists front, Lines.mixed_report = front ++ nl).
Proof.
  apply (document_frame Lines.mixed Lines.mixed_report).
  vm_compute. reflexivity.
Defined.

Lemma report_appends_witness :
  exists blocks,
    Lines.mixed_report = heading ++ blocks
    /\ check ([Lines.compiling; Lines.mismatched_types] ++ Lines.mixed)
       = inr ((lit "# Cargo Check Report" ++ nl
               ++ nl
               ++ lit "### Error: mismatched types" ++ nl
               ++ lit "File: src/main.rs:10" ++ nl
               ++ lit "```rust" ++ nl
               ++ lit "error: mismatched types" ++ nl
               ++ lit " --> src/main.rs:10" ++ nl
               ++ lit "```" ++ nl)
              ++ nl ++ blocks).
Proof.
  apply (report_appends [Lines.compiling; Lines.mismatched_types] Lines.mixed).
  - vm_compute. reflexivity.
  - vm_compute. reflexivity.
  - vm_compute. reflexivity.
  - vm_compute. reflexivity.
Defined.
